(** * The Abode integration of Home Assistant, as a shallow embedding

    Source: [homeassistant/components/abode/__init__.py].

    The module is glue between two external systems: the vendor SDK
    ([abodepy]) and the host framework ([hass]).  Both are modelled by
    what the module can observe of them:

    - every call into the vendor SDK or into the host is appended to a
      [trace] of effects, in program order;
    - the registries the module reads back (the host's service registry,
      its data slot [hass.data[DOMAIN]], the shutdown listeners, the
      callbacks subscribed at the vendor client) are explicit state;
    - whether a vendor call raises is decided by an oracle carried by the
      world ([vendor_outcome]): the theorems hold for every oracle.

    Python objects that are shared by reference (the [AbodeSystem]
    context, reachable from [hass.data[DOMAIN]] and from each entity's
    [_data]) live in a heap and are addressed by location. *)

From stdpp Require Import gmap strings list fin_maps.

Local Open Scope string_scope.
Local Open Scope list_scope.

(** ** Constants of the module *)

Definition CONF_POLLING : string := "polling".
Definition DEFAULT_CACHEDB : string := "./abodepy_cache.pickle".

Definition SERVICE_SETTINGS : string := "change_setting".
Definition SERVICE_CAPTURE_IMAGE : string := "capture_image".
Definition SERVICE_TRIGGER : string := "trigger_quick_action".

Definition ATTR_DEVICE_ID : string := "device_id".
Definition ATTR_DEVICE_NAME : string := "device_name".
Definition ATTR_DEVICE_TYPE : string := "device_type".
Definition ATTR_EVENT_CODE : string := "event_code".
Definition ATTR_EVENT_NAME : string := "event_name".
Definition ATTR_EVENT_TYPE : string := "event_type".
Definition ATTR_EVENT_UTC : string := "event_utc".
Definition ATTR_SETTING : string := "setting".
Definition ATTR_USER_NAME : string := "user_name".
Definition ATTR_VALUE : string := "value".

(** Modelled from the spec: [ATTR_DATE] and [ATTR_TIME] are imported from
    [homeassistant.const], which is not part of the sources; the spec
    names the two fields "date" and "time". *)
Definition ATTR_DATE : string := "date".
Definition ATTR_TIME : string := "time".

Definition ABODE_PLATFORMS : list string :=
  [ "alarm_control_panel"; "binary_sensor"; "lock"; "switch";
    "cover"; "camera"; "light"; "sensor" ].

(** ** Data *)

(** Values found in a vendor event payload (a decoded JSON object). *)
Inductive pyval :=
| PyNone
| PyBool (b : bool)
| PyInt (z : Z)
| PyStr (s : string).

(** Modelled from the spec: the event categories are the constants of
    [abodepy.helpers.timeline] (imported as [TIMELINE]), which is not part
    of the sources.  The five the module names are constructors of their
    own; every other category of the vendor is an [OTHER_GROUP]. *)
Inductive timeline_group :=
| ALARM_GROUP
| ALARM_END_GROUP
| PANEL_FAULT_GROUP
| PANEL_RESTORE_GROUP
| AUTOMATION_GROUP
| OTHER_GROUP (name : string).

Global Instance timeline_group_eq_dec : EqDecision timeline_group.
Proof. solve_decision. Defined.

(** Exceptions, by the classes the module's [except] clauses tell apart.
    [KeyError] is what [hass.data[DOMAIN]] raises when the slot is empty,
    [TypeError] what calling [None] or testing membership in [None]
    raises; [OtherError] stands for every other class. *)
Inductive exn :=
| AbodeException (msg : string)
| ConnectTimeout
| HTTPError
| KeyError
| TypeError
| OtherError (name : string).

Definition exn_str (e : exn) : string :=
  match e with
  | AbodeException msg => msg
  | ConnectTimeout => "ConnectTimeout"
  | HTTPError => "HTTPError"
  | KeyError => "KeyError"
  | TypeError => "TypeError"
  | OtherError name => name
  end.

(** Locations of [AbodeSystem] objects in the heap are natural numbers. *)

(** [AbodeDevice]: [_data] is a reference to the shared context, [_device]
    the wrapped vendor device (of which the module reads [device_id]);
    [entity_id] is assigned by the host. *)
Record AbodeDevice := {
  dev_data : nat;
  dev_device_id : string;
  dev_entity_id : string;
}.

(** [AbodeAutomation]: [_event] is [None] unless the platform passes an
    event category. *)
Record AbodeAutomation := {
  aut_data : nat;
  aut_automation_id : string;
  aut_event : option timeline_group;
  aut_entity_id : string;
}.

(** The callables the module hands to the vendor SDK. *)
Inductive callback :=
| relay_callback (event : timeline_group)     (* partial(event_callback, event) *)
| device_update_callback (d : AbodeDevice)     (* AbodeDevice._update_callback *)
| automation_update_callback (a : AbodeAutomation). (* AbodeAutomation._update_callback *)

(** The vendor client, by the subscriptions the module makes on it. *)
Record Abode := {
  event_callbacks : list (timeline_group * callback);
  device_callbacks : list (string * callback);
}.

(** class AbodeSystem *)
Record AbodeSystem := {
  abode : Abode;
  polling : bool;
  devices : list AbodeDevice;
  logout_listener : option nat;
}.

(** [config_entry.data], as [CONFIG_SCHEMA] validates it: two strings, and
    a boolean for [CONF_POLLING] (false by default). *)
Record ConfigEntry := {
  conf_username : string;
  conf_password : string;
  conf_polling : bool;
}.

(** [call.data] of a service call, by the keys the handlers read. *)
Record ServiceCall := {
  call_setting : option string;
  call_value : option string;
  call_entity_id : option (list string);
}.

(** The three handlers that [setup_hass_services] registers. *)
Inductive handler :=
| h_change_setting
| h_capture_image
| h_trigger_quick_action.

(** The listener that [setup_hass_events] registers. *)
Inductive listener :=
| l_logout.

(** Calls into the vendor SDK. *)
Inductive vendor_op :=
| v_Abode (username password : string)
          (auto_login get_devices get_automations : bool) (cache_path : string)
| v_events_start
| v_events_stop
| v_logout
| v_set_setting (setting value : option string)
| v_add_event_callback (event : timeline_group) (cb : callback)
| v_add_device_callback (device_id : string) (cb : callback)
| v_remove_all_device_callbacks (device_id : string)
| v_capture (entity_id : string)
| v_trigger (entity_id : string)
| v_device_refresh (device_id : string)
| v_automation_refresh (automation_id : string).

Inductive log_level := ERROR | WARNING | INFO.

(** Everything the module does to its environment. *)
Inductive effect :=
| Vendor (op : vendor_op)
| ServiceRegister (name : string) (h : handler)
| ServiceRemove (name : string)
| ForwardEntrySetup (platform : string)
| ForwardEntryUnload (platform : string)
| ListenOnce (id : nat)
| ListenerRemove (id : nat)
| BusFire (event : timeline_group) (data : gmap string pyval)
| ScheduleUpdate (entity_id : string)
| Log (level : log_level) (msg : string).

(** The world: the host, the heap of shared contexts and the vendor. *)
Record World := {
  vendor_outcome : vendor_op → option exn; (* None: the call returns *)
  config_dir : string;
  heap : gmap nat AbodeSystem;
  hass_data : option nat;                  (* hass.data[DOMAIN] *)
  services : gmap string handler;          (* hass.services, domain DOMAIN *)
  listeners : gmap nat listener;           (* EVENT_HOMEASSISTANT_STOP *)
  platforms : list string;                 (* forwarded entry setups *)
  trace : list effect;
}.

Definition set_heap (f : gmap nat AbodeSystem → gmap nat AbodeSystem) (w : World) : World :=
  {| vendor_outcome := vendor_outcome w; config_dir := config_dir w;
     heap := f (heap w); hass_data := hass_data w; services := services w;
     listeners := listeners w; platforms := platforms w; trace := trace w |}.

Definition set_hass_data (d : option nat) (w : World) : World :=
  {| vendor_outcome := vendor_outcome w; config_dir := config_dir w;
     heap := heap w; hass_data := d; services := services w;
     listeners := listeners w; platforms := platforms w; trace := trace w |}.

Definition set_services (f : gmap string handler → gmap string handler) (w : World) : World :=
  {| vendor_outcome := vendor_outcome w; config_dir := config_dir w;
     heap := heap w; hass_data := hass_data w; services := f (services w);
     listeners := listeners w; platforms := platforms w; trace := trace w |}.

Definition set_listeners (f : gmap nat listener → gmap nat listener) (w : World) : World :=
  {| vendor_outcome := vendor_outcome w; config_dir := config_dir w;
     heap := heap w; hass_data := hass_data w; services := services w;
     listeners := f (listeners w); platforms := platforms w; trace := trace w |}.

Definition set_platforms (f : list string → list string) (w : World) : World :=
  {| vendor_outcome := vendor_outcome w; config_dir := config_dir w;
     heap := heap w; hass_data := hass_data w; services := services w;
     listeners := listeners w; platforms := f (platforms w); trace := trace w |}.

Definition add_trace (e : effect) (w : World) : World :=
  {| vendor_outcome := vendor_outcome w; config_dir := config_dir w;
     heap := heap w; hass_data := hass_data w; services := services w;
     listeners := listeners w; platforms := platforms w;
     trace := trace w ++ [e] |}.

(** ** The monad of the module: state, and exceptions that keep the state *)

Inductive Result (A : Type) :=
| Ret (a : A)
| Raise (e : exn).
Arguments Ret {A} a.
Arguments Raise {A} e.

Definition M (A : Type) : Type := World → World * Result A.

Global Instance M_ret : MRet M := λ A a w, (w, Ret a).
Global Instance M_bind : MBind M := λ A B f m w,
  match m w with
  | (w', Ret a) => f a w'
  | (w', Raise e) => (w', Raise e)
  end.

Definition raise {A} (e : exn) : M A := λ w, (w, Raise e).

(** try: body / except <classes matched by [catches]>: handler *)
Definition try_except {A} (body : M A) (catches : exn → bool) (handler : exn → M A) : M A :=
  λ w, match body w with
       | (w', Ret a) => (w', Ret a)
       | (w', Raise e) => if catches e then handler e w' else (w', Raise e)
       end.

Definition emit (e : effect) : M unit := λ w, (add_trace e w, Ret tt).

(** A call into the vendor SDK: recorded, then it returns or raises. *)
Definition vendor_call (op : vendor_op) : M unit := λ w,
  match vendor_outcome w op with
  | None => (add_trace (Vendor op) w, Ret tt)
  | Some e => (add_trace (Vendor op) w, Raise e)
  end.

(** for x in l: f x *)
Fixpoint for_each {A} (l : list A) (f : A → M unit) : M unit :=
  match l with
  | [] => mret tt
  | x :: l' => f x ;; for_each l' f
  end.
Arguments for_each : simpl never.

(** hass.data[DOMAIN] *)
Definition hass_data_DOMAIN : M nat := λ w,
  match hass_data w with
  | Some l => (w, Ret l)
  | None => (w, Raise KeyError)
  end.

(** Reading and updating the object behind a reference.  References of a
    Python program do not dangle; a world in which one does is answered
    with an error that no [except] clause of the module matches. *)
Definition deref (l : nat) : M AbodeSystem := λ w,
  match heap w !! l with
  | Some s => (w, Ret s)
  | None => (w, Raise (OtherError "ReferenceError"))
  end.

Definition update (l : nat) (f : AbodeSystem → AbodeSystem) : M unit := λ w,
  (set_heap (alter f l) w, Ret tt).

Definition set_abode (f : Abode → Abode) (s : AbodeSystem) : AbodeSystem :=
  {| abode := f (abode s); polling := polling s; devices := devices s;
     logout_listener := logout_listener s |}.

Definition set_logout_listener (h : option nat) (s : AbodeSystem) : AbodeSystem :=
  {| abode := abode s; polling := polling s; devices := devices s;
     logout_listener := h |}.

(** ** The vendor SDK, as far as the module relies on it *)

Definition new_Abode : Abode := {| event_callbacks := []; device_callbacks := [] |}.

(** abode.events.add_event_callback(event, cb) on the client of context [l] *)
Definition add_event_callback (l : nat) (event : timeline_group) (cb : callback) : M unit :=
  vendor_call (v_add_event_callback event cb) ;;
  update l (set_abode (λ a,
    {| event_callbacks := event_callbacks a ++ [(event, cb)];
       device_callbacks := device_callbacks a |})).

(** abode.events.add_device_callback(device_id, cb) *)
Definition add_device_callback (l : nat) (device_id : string) (cb : callback) : M unit :=
  vendor_call (v_add_device_callback device_id cb) ;;
  update l (set_abode (λ a,
    {| event_callbacks := event_callbacks a;
       device_callbacks := device_callbacks a ++ [(device_id, cb)] |})).

(** abode.events.remove_all_device_callbacks(device_id) *)
Definition remove_all_device_callbacks (l : nat) (device_id : string) : M unit :=
  vendor_call (v_remove_all_device_callbacks device_id) ;;
  update l (set_abode (λ a,
    {| event_callbacks := event_callbacks a;
       device_callbacks :=
         filter (λ p, p.1 ≠ device_id) (device_callbacks a) |})).

(** abode = Abode(username, password, True, True, True, cache) *)
Definition Abode_init (username password : string)
    (auto_login get_devices get_automations : bool) (cache_path : string) : M Abode :=
  vendor_call (v_Abode username password auto_login get_devices get_automations cache_path) ;;
  mret new_Abode.

(** AbodeSystem.__init__, returning the reference to the new object *)
Definition AbodeSystem_init (abode : Abode) (polling : bool) : M nat := λ w,
  let l := fresh (dom (heap w)) in
  (set_heap <[l := {| abode := abode; polling := polling; devices := [];
                      logout_listener := None |}]> w, Ret l).

(** ** The host framework, as far as the module relies on it *)

Definition hass_config_path (p : string) : M string := λ w,
  (w, Ret (config_dir w +:+ "/" +:+ p)).

Definition services_register (name : string) (h : handler) : M unit := λ w,
  (set_services <[name := h]> (add_trace (ServiceRegister name h) w), Ret tt).

Definition services_async_remove (name : string) : M unit := λ w,
  (set_services (delete name) (add_trace (ServiceRemove name) w), Ret tt).

Definition async_forward_entry_setup (platform : string) : M unit := λ w,
  (set_platforms (λ ps, ps ++ [platform]) (add_trace (ForwardEntrySetup platform) w), Ret tt).

(** The forwarded platforms without [platform]. *)
Definition without_platform (platform : string) (ps : list string) : list string :=
  filter (λ p, p ≠ platform) ps.
Arguments without_platform : simpl never.

Definition async_forward_entry_unload (platform : string) : M unit := λ w,
  (set_platforms (without_platform platform)
     (add_trace (ForwardEntryUnload platform) w), Ret tt).

(** hass.bus.async_listen_once(EVENT_HOMEASSISTANT_STOP, f): the result
    is the handle that detaches the listener. *)
Definition bus_async_listen_once (f : listener) : M nat := λ w,
  let h := fresh (dom (listeners w)) in
  (set_listeners <[h := f]> (add_trace (ListenOnce h) w), Ret h).

(** Calling the detach handle. *)
Definition remove_listener (h : nat) : M unit := λ w,
  (set_listeners (delete h) (add_trace (ListenerRemove h) w), Ret tt).

Definition bus_fire (event : timeline_group) (data : gmap string pyval) : M unit :=
  emit (BusFire event data).

Definition schedule_update_ha_state (entity_id : string) : M unit :=
  emit (ScheduleUpdate entity_id).

Definition LOGGER (level : log_level) (msg : string) : M unit :=
  emit (Log level msg).

(** hass.async_add_job(f, args): the job is handed to the executor and
    not awaited, so what it raises does not reach the caller. *)
Definition async_add_job (job : M unit) : M unit := λ w, ((job w).1, Ret tt).

Definition hass_data_set (l : nat) : M unit := λ w, (set_hass_data (Some l) w, Ret tt).

(** hass.data.pop(DOMAIN) *)
Definition hass_data_pop : M unit := λ w,
  match hass_data w with
  | Some _ => (set_hass_data None w, Ret tt)
  | None => (w, Raise KeyError)
  end.

(** ** The module *)

(** except (AbodeException, ConnectTimeout, HTTPError) *)
Definition is_connect_error (e : exn) : bool :=
  match e with
  | AbodeException _ | ConnectTimeout | HTTPError => true
  | _ => false
  end.

(** except AbodeException *)
Definition is_AbodeException (e : exn) : bool :=
  match e with
  | AbodeException _ => true
  | _ => false
  end.

(** *** setup_hass_events *)

(** The closure [logout] of [setup_hass_events]. *)
Definition logout : M unit :=
  l ← hass_data_DOMAIN; sys ← deref l;
  (if negb (polling sys)
   then (l ← hass_data_DOMAIN; _ ← deref l; vendor_call v_events_stop)
   else mret tt) ;;
  l ← hass_data_DOMAIN; _ ← deref l; vendor_call v_logout ;;
  LOGGER INFO "Logged out of Abode".

Definition setup_hass_events : M unit :=
  l ← hass_data_DOMAIN; sys ← deref l;
  (if negb (polling sys)
   then (l ← hass_data_DOMAIN; _ ← deref l; vendor_call v_events_start)
   else mret tt) ;;
  h ← bus_async_listen_once l_logout;
  l ← hass_data_DOMAIN; _ ← deref l;
  update l (set_logout_listener (Some h)).

(** *** setup_hass_services *)

Definition change_setting (call : ServiceCall) : M unit :=
  let setting := call_setting call in
  let value := call_value call in
  try_except
    (l ← hass_data_DOMAIN; _ ← deref l; vendor_call (v_set_setting setting value))
    is_AbodeException
    (λ ex, LOGGER WARNING (exn_str ex)).

(** [device for device in devices if device.entity_id in entity_ids]:
    the membership test is evaluated once per device, and raises when
    [entity_ids] is [None]. *)
Definition select_devices (devices : list AbodeDevice) (entity_ids : option (list string))
    : M (list AbodeDevice) :=
  match entity_ids with
  | Some ids => mret (filter (λ device, dev_entity_id device ∈ ids) devices)
  | None => match devices with
            | [] => mret []
            | _ :: _ => raise TypeError
            end
  end.

Definition capture_image (call : ServiceCall) : M unit :=
  let entity_ids := call_entity_id call in
  l ← hass_data_DOMAIN; sys ← deref l;
  target_devices ← select_devices (devices sys) entity_ids;
  for_each target_devices (λ device, vendor_call (v_capture (dev_entity_id device))).

Definition trigger_quick_action (call : ServiceCall) : M unit :=
  let entity_ids := call_entity_id call in
  l ← hass_data_DOMAIN; sys ← deref l;
  target_devices ← select_devices (devices sys) entity_ids;
  for_each target_devices (λ device, vendor_call (v_trigger (dev_entity_id device))).

Definition setup_hass_services : M unit :=
  services_register SERVICE_SETTINGS h_change_setting ;;
  services_register SERVICE_CAPTURE_IMAGE h_capture_image ;;
  services_register SERVICE_TRIGGER h_trigger_quick_action.

(** What the host does with a registered handler. *)
Definition run_handler (h : handler) (call : ServiceCall) : M unit :=
  match h with
  | h_change_setting => change_setting call
  | h_capture_image => capture_image call
  | h_trigger_quick_action => trigger_quick_action call
  end.

(** *** setup_abode_events *)

(** event_json.get(key, default), with the empty string for the default *)
Definition get_or_empty (event_json : gmap string pyval) (key : string) : pyval :=
  default (PyStr EmptyString) (event_json !! key).

(** The dict literal [data] of [event_callback], keys in source order. *)
Definition event_data (event_json : gmap string pyval) : gmap string pyval :=
  <[ATTR_TIME := get_or_empty event_json ATTR_TIME]>
  (<[ATTR_DATE := get_or_empty event_json ATTR_DATE]>
  (<[ATTR_USER_NAME := get_or_empty event_json ATTR_USER_NAME]>
  (<[ATTR_EVENT_UTC := get_or_empty event_json ATTR_EVENT_UTC]>
  (<[ATTR_EVENT_TYPE := get_or_empty event_json ATTR_EVENT_TYPE]>
  (<[ATTR_EVENT_NAME := get_or_empty event_json ATTR_EVENT_NAME]>
  (<[ATTR_EVENT_CODE := get_or_empty event_json ATTR_EVENT_CODE]>
  (<[ATTR_DEVICE_TYPE := get_or_empty event_json ATTR_DEVICE_TYPE]>
  (<[ATTR_DEVICE_NAME := get_or_empty event_json ATTR_DEVICE_NAME]>
  (<[ATTR_DEVICE_ID := get_or_empty event_json ATTR_DEVICE_ID]> ∅))))))))).

Definition event_callback (event : timeline_group) (event_json : gmap string pyval) : M unit :=
  bus_fire event (event_data event_json).

(** The list [events] of [setup_abode_events]. *)
Definition events : list timeline_group :=
  [ ALARM_GROUP; ALARM_END_GROUP; PANEL_FAULT_GROUP; PANEL_RESTORE_GROUP;
    AUTOMATION_GROUP ].

Definition setup_abode_events : M unit :=
  for_each events (λ event,
    l ← hass_data_DOMAIN; _ ← deref l;
    add_event_callback l event (relay_callback event)).

(** *** async_setup_entry, async_unload_entry *)

(** The [try] statement of [async_setup_entry]: [true] when the body ran
    to its end, [false] when the [except] clause returned [False]. *)
Definition async_setup_entry_try (config_entry : ConfigEntry) : M bool :=
  let username := conf_username config_entry in
  let password := conf_password config_entry in
  let polling := conf_polling config_entry in
  try_except
    (cache ← hass_config_path DEFAULT_CACHEDB;
     abode ← Abode_init username password true true true cache;
     l ← AbodeSystem_init abode polling;
     hass_data_set l ;;
     mret true)
    is_connect_error
    (λ ex, LOGGER ERROR ("Unable to connect to Abode: " +:+ exn_str ex) ;;
           mret false).

Definition async_setup_entry (config_entry : ConfigEntry) : M bool :=
  connected ← async_setup_entry_try config_entry;
  if (connected : bool) then
    for_each ABODE_PLATFORMS (λ platform, async_forward_entry_setup platform) ;;
    setup_hass_events ;;
    setup_hass_services ;;
    setup_abode_events ;;
    mret true
  else mret false.

Definition async_unload_entry (config_entry : ConfigEntry) : M bool :=
  services_async_remove SERVICE_SETTINGS ;;
  services_async_remove SERVICE_CAPTURE_IMAGE ;;
  services_async_remove SERVICE_TRIGGER ;;
  for_each ABODE_PLATFORMS (λ platform, async_forward_entry_unload platform) ;;
  l ← hass_data_DOMAIN; _ ← deref l; vendor_call v_events_stop ;;
  l ← hass_data_DOMAIN; _ ← deref l; vendor_call v_logout ;;
  l ← hass_data_DOMAIN; sys ← deref l;
  match logout_listener sys with
  | Some h => remove_listener h
  | None => raise TypeError
  end ;;
  hass_data_pop ;;
  mret true.

(** *** class AbodeDevice *)

Definition AbodeDevice_update_callback (d : AbodeDevice) : M unit :=
  schedule_update_ha_state (dev_entity_id d).

Definition AbodeDevice_async_added_to_hass (d : AbodeDevice) : M unit :=
  _ ← deref (dev_data d);
  async_add_job
    (add_device_callback (dev_data d) (dev_device_id d) (device_update_callback d)).

Definition AbodeDevice_async_will_remove_from_hass (d : AbodeDevice) : M unit :=
  _ ← deref (dev_data d);
  async_add_job (remove_all_device_callbacks (dev_data d) (dev_device_id d)).

Definition AbodeDevice_should_poll (d : AbodeDevice) : M bool :=
  sys ← deref (dev_data d); mret (polling sys).

Definition AbodeDevice_update (d : AbodeDevice) : M unit :=
  vendor_call (v_device_refresh (dev_device_id d)).

(** *** class AbodeAutomation *)

(** Truth value of [self._event]: [None] and the empty name are false. *)
Definition event_truthy (e : option timeline_group) : bool :=
  match e with
  | None => false
  | Some (OTHER_GROUP EmptyString) => false
  | Some _ => true
  end.

Definition AbodeAutomation_update_callback (a : AbodeAutomation) : M unit :=
  vendor_call (v_automation_refresh (aut_automation_id a)) ;;
  schedule_update_ha_state (aut_entity_id a).

Definition AbodeAutomation_async_added_to_hass (a : AbodeAutomation) : M unit :=
  match aut_event a with
  | Some event =>
      if event_truthy (aut_event a) then
        _ ← deref (aut_data a);
        async_add_job
          (add_event_callback (aut_data a) event (automation_update_callback a))
      else mret tt
  | None => mret tt
  end.

(** The class does not override [async_will_remove_from_hass]: what runs
    on removal is the method of [Entity], which does nothing. *)
Definition AbodeAutomation_async_will_remove_from_hass (a : AbodeAutomation) : M unit :=
  mret tt.

Definition AbodeAutomation_should_poll (a : AbodeAutomation) : M bool :=
  sys ← deref (aut_data a); mret (polling sys).

Definition AbodeAutomation_update (a : AbodeAutomation) : M unit :=
  vendor_call (v_automation_refresh (aut_automation_id a)).

(** ** How the environment drives the module *)

(** The vendor SDK calls a subscribed callable: event callbacks with the
    event payload, device callbacks with the device. *)
Definition run_callback (cb : callback) (event_json : gmap string pyval) : M unit :=
  match cb with
  | relay_callback event => event_callback event event_json
  | device_update_callback d => AbodeDevice_update_callback d
  | automation_update_callback a => AbodeAutomation_update_callback a
  end.

(** The client of context [l] receives an event of category [event]. *)
Definition deliver_event (l : nat) (event : timeline_group)
    (event_json : gmap string pyval) : M unit :=
  sys ← deref l;
  for_each (filter (λ p, p.1 = event) (event_callbacks (abode sys)))
           (λ p, run_callback p.2 event_json).

(** The host dispatches a service call of the domain to the registered
    handler.  [call] is the call data as the host hands it to the handler,
    that is after the schema given at registration has validated it. *)
Definition call_service (name : string) (call : ServiceCall) : M unit := λ w,
  match services w !! name with
  | Some h => run_handler h call w
  | None => (w, Raise (OtherError "ServiceNotFound"))
  end.

(** ** Observing a run *)

(** [w] with new registries and [new] appended to its trace. *)
Definition with_state (w : World) (heap' : gmap nat AbodeSystem)
    (data' : option nat) (services' : gmap string handler)
    (listeners' : gmap nat listener) (platforms' : list string)
    (new : list effect) : World :=
  {| vendor_outcome := vendor_outcome w; config_dir := config_dir w;
     heap := heap'; hass_data := data'; services := services';
     listeners := listeners'; platforms := platforms';
     trace := trace w ++ new |}.

(** The effects that a run from [w] to [w'] appended. *)
Definition effects_since (w w' : World) : list effect :=
  drop (length (trace w)) (trace w').

(** The callbacks subscribed at the client of the context at [l]. *)
Definition subscribed_device_callbacks (w : World) (l : nat) : list (string * callback) :=
  match heap w !! l with
  | Some s => device_callbacks (abode s)
  | None => []
  end.

Definition subscribed_event_callbacks (w : World) (l : nat)
    : list (timeline_group * callback) :=
  match heap w !! l with
  | Some s => event_callbacks (abode s)
  | None => []
  end.

(** Which effects register a service, or subscribe the relay callback. *)
Definition registers (name : string) (e : effect) : bool :=
  match e with
  | ServiceRegister n _ => bool_decide (n = name)
  | _ => false
  end.

Definition subscribes_relay (event : timeline_group) (e : effect) : bool :=
  match e with
  | Vendor (v_add_event_callback g (relay_callback g')) =>
      bool_decide (g = event) && bool_decide (g' = event)
  | _ => false
  end.

(** The subscriptions of [setup_abode_events], in order. *)
Definition relay_subscriptions : list (timeline_group * callback) :=
  map (λ event, (event, relay_callback event)) events.

Definition subscribe_events (subs : list (timeline_group * callback))
    (s : AbodeSystem) : AbodeSystem :=
  set_abode (λ a, {| event_callbacks := event_callbacks a ++ subs;
                     device_callbacks := device_callbacks a |}) s.

(** The world after [setup_hass_events] registered its listener. *)
Definition listening (w : World) (l : nat) (new : list effect) : World :=
  let h := fresh (dom (listeners w)) in
  with_state w (alter (set_logout_listener (Some h)) l (heap w))
    (hass_data w) (services w) (<[h := l_logout]> (listeners w)) (platforms w)
    (new ++ [ListenOnce h]).

(** The world that a successful [async_setup_entry] leaves. *)
Definition set_up (config_entry : ConfigEntry) (w : World) : World :=
  let l := fresh (dom (heap w)) in
  let h := fresh (dom (listeners w)) in
  with_state w
    (<[l := {| abode := {| event_callbacks := relay_subscriptions;
                           device_callbacks := [] |};
               polling := conf_polling config_entry;
               devices := [];
               logout_listener := Some h |}]> (heap w))
    (Some l)
    (<[SERVICE_TRIGGER := h_trigger_quick_action]>
       (<[SERVICE_CAPTURE_IMAGE := h_capture_image]>
          (<[SERVICE_SETTINGS := h_change_setting]> (services w))))
    (<[h := l_logout]> (listeners w))
    (platforms w ++ ABODE_PLATFORMS)
    ([Vendor (v_Abode (conf_username config_entry) (conf_password config_entry)
                true true true (config_dir w +:+ "/" +:+ DEFAULT_CACHEDB))]
     ++ map ForwardEntrySetup ABODE_PLATFORMS
     ++ (if conf_polling config_entry then [] else [Vendor v_events_start])
     ++ [ ListenOnce h;
          ServiceRegister SERVICE_SETTINGS h_change_setting;
          ServiceRegister SERVICE_CAPTURE_IMAGE h_capture_image;
          ServiceRegister SERVICE_TRIGGER h_trigger_quick_action ]
     ++ map (λ event, Vendor (v_add_event_callback event (relay_callback event)))
            events).

(** ** Worlds to run the module in *)

Definition quiet_vendor : vendor_op → option exn := λ _, None.

Definition fresh_world (vendor : vendor_op → option exn) : World :=
  {| vendor_outcome := vendor; config_dir := "/config"; heap := ∅;
     hass_data := None; services := ∅; listeners := ∅; platforms := [];
     trace := [] |}.

Definition push_entry : ConfigEntry :=
  {| conf_username := "user"; conf_password := "secret"; conf_polling := false |}.
Definition poll_entry : ConfigEntry :=
  {| conf_username := "user"; conf_password := "secret"; conf_polling := true |}.

Definition http_down : vendor_op → option exn := λ op,
  match op with
  | v_Abode _ _ _ _ _ _ => Some HTTPError
  | _ => None
  end.

Definition setting_rejected : vendor_op → option exn := λ op,
  match op with
  | v_set_setting _ _ => Some (AbodeException "Invalid setting")
  | _ => None
  end.

Definition capture_fails : vendor_op → option exn := λ op,
  match op with
  | v_capture _ | v_trigger _ => Some (AbodeException "Request failed")
  | _ => None
  end.

Definition pushing_world : World :=
  (async_setup_entry push_entry (fresh_world quiet_vendor)).1.
Definition polling_world : World :=
  (async_setup_entry poll_entry (fresh_world quiet_vendor)).1.

(** The world right after the [try] statement of [async_setup_entry]. *)
Definition connected_world (config_entry : ConfigEntry) : World :=
  (async_setup_entry_try config_entry (fresh_world quiet_vendor)).1.

Definition camera_call : ServiceCall :=
  {| call_setting := None; call_value := None;
     call_entity_id := Some ["camera.front"] |}.

Definition setting_call : ServiceCall :=
  {| call_setting := Some "beeper_mute"; call_value := Some "2";
     call_entity_id := None |}.

Definition front_camera (l : nat) : AbodeDevice :=
  {| dev_data := l; dev_device_id := "XF:1"; dev_entity_id := "camera.front" |}.
Definition back_camera (l : nat) : AbodeDevice :=
  {| dev_data := l; dev_device_id := "XF:2"; dev_entity_id := "camera.back" |}.

Definition away_automation (l : nat) (event : option timeline_group) : AbodeAutomation :=
  {| aut_data := l; aut_automation_id := "7"; aut_event := event;
     aut_entity_id := "switch.away" |}.

(** The platforms append their entities to [hass.data[DOMAIN].devices]. *)
Definition add_devices (l : nat) (ds : list AbodeDevice) (w : World) : World :=
  set_heap (alter (λ s, {| abode := abode s; polling := polling s;
                           devices := devices s ++ ds;
                           logout_listener := logout_listener s |}) l) w.

(** ** The attribute dictionaries of the entities *)

(** The vendor device wrapped by an [AbodeDevice], by the attributes the
    entity reads from it. *)
Record VendorDevice := {
  vd_device_id : string;
  vd_device_uuid : string;
  vd_name : string;
  vd_type : string;
  vd_battery_low : bool;
  vd_no_response : bool;
}.

(** The vendor automation wrapped by an [AbodeAutomation]. *)
Record VendorAutomation := {
  va_automation_id : string;
  va_name : string;
  va_type : string;
  va_sub_type : string;
}.

(** AbodeDevice.device_state_attributes.  [ATTR_ATTRIBUTION] (of
    [homeassistant.const]) and [ATTRIBUTION] (of [.const]) are not part of
    the sources and are parameters; the keys are inserted in source order,
    so that a later key wins. *)
Definition AbodeDevice_device_state_attributes (ATTR_ATTRIBUTION ATTRIBUTION : string)
    (device : VendorDevice) : gmap string pyval :=
  <["device_type" := PyStr (vd_type device)]>
  (<["no_response" := PyBool (vd_no_response device)]>
  (<["battery_low" := PyBool (vd_battery_low device)]>
  (<["device_id" := PyStr (vd_device_id device)]>
  (<[ATTR_ATTRIBUTION := PyStr ATTRIBUTION]> ∅)))).

(** AbodeAutomation.device_state_attributes *)
Definition AbodeAutomation_device_state_attributes (ATTR_ATTRIBUTION ATTRIBUTION : string)
    (automation : VendorAutomation) : gmap string pyval :=
  <["sub_type" := PyStr (va_sub_type automation)]>
  (<["type" := PyStr (va_type automation)]>
  (<["automation_id" := PyStr (va_automation_id automation)]>
  (<[ATTR_ATTRIBUTION := PyStr ATTRIBUTION]> ∅))).

(** The fields of a relayed event. *)
Definition EVENT_FIELDS : list string :=
  [ ATTR_DEVICE_ID; ATTR_DEVICE_NAME; ATTR_DEVICE_TYPE; ATTR_EVENT_CODE;
    ATTR_EVENT_NAME; ATTR_EVENT_TYPE; ATTR_EVENT_UTC; ATTR_USER_NAME;
    ATTR_DATE; ATTR_TIME ].

(** ** More vendors to run the module against *)

Definition start_fails : vendor_op → option exn := λ op,
  match op with
  | v_events_start => Some (AbodeException "Socket refused")
  | _ => None
  end.

Definition stop_fails : vendor_op → option exn := λ op,
  match op with
  | v_events_stop => Some (AbodeException "Socket closed")
  | _ => None
  end.

Definition subscribe_fails : vendor_op → option exn := λ op,
  match op with
  | v_add_device_callback _ _ => Some (AbodeException "Invalid device")
  | v_add_event_callback PANEL_FAULT_GROUP _ => Some (AbodeException "Invalid group")
  | _ => None
  end.

Definition setting_times_out : vendor_op → option exn := λ op,
  match op with
  | v_set_setting _ _ => Some ConnectTimeout
  | _ => None
  end.

(** Only the back camera fails to capture. *)
Definition back_camera_fails : vendor_op → option exn := λ op,
  match op with
  | v_capture "camera.back" => Some (AbodeException "Request failed")
  | _ => None
  end.

(** The context that a successful setup stores. *)
Definition set_up_context (polling : bool) (h : nat) : AbodeSystem :=
  {| abode := {| event_callbacks := relay_subscriptions; device_callbacks := [] |};
     polling := polling; devices := []; logout_listener := Some h |}.

(** [w'] differs from [w] by effects appended to the trace only. *)
Definition only_effects (w w' : World) : Prop :=
  vendor_outcome w' = vendor_outcome w ∧ config_dir w' = config_dir w
  ∧ heap w' = heap w ∧ hass_data w' = hass_data w ∧ services w' = services w
  ∧ listeners w' = listeners w ∧ platforms w' = platforms w
  ∧ trace w `prefix_of` trace w'.

(** * Proofs *)

(** ** Running the monad *)

Lemma mbind_run {A B} (m : M A) (f : A → M B) (w : World) :
  (m ≫= f) w = match m w with
               | (w', Ret a) => f a w'
               | (w', Raise e) => (w', Raise e)
               end.
Proof. reflexivity. Qed.

Lemma world_eta (w : World) :
  with_state w (heap w) (hass_data w) (services w) (listeners w) (platforms w) [] = w.
Proof. destruct w. unfold with_state. simpl. by rewrite app_nil_r. Qed.

Lemma with_state_with_state w h d s ls ps new h' d' s' ls' ps' new' :
  with_state (with_state w h d s ls ps new) h' d' s' ls' ps' new' =
  with_state w h' d' s' ls' ps' (new ++ new').
Proof. unfold with_state. simpl. by rewrite app_assoc. Qed.

Lemma effects_since_with_state w h d s ls ps new :
  effects_since w (with_state w h d s ls ps new) = new.
Proof. unfold effects_since. simpl. by rewrite drop_app_length. Qed.

Lemma hass_data_DOMAIN_run (w : World) (l : nat) :
  hass_data w = Some l → hass_data_DOMAIN w = (w, Ret l).
Proof. unfold hass_data_DOMAIN. by intros ->. Qed.

Lemma deref_run (w : World) (l : nat) (sys : AbodeSystem) :
  heap w !! l = Some sys → deref l w = (w, Ret sys).
Proof. unfold deref. by intros ->. Qed.

(** [hass.data[DOMAIN].attr], evaluated in a world that has the context. *)
Lemma context_run {A} (k : nat → AbodeSystem → M A) w l sys :
  hass_data w = Some l → heap w !! l = Some sys →
  (l' ← hass_data_DOMAIN; sys' ← deref l'; k l' sys') w = k l sys w.
Proof.
  intros Hd Hh. rewrite mbind_run, (hass_data_DOMAIN_run w l Hd).
  by rewrite mbind_run, (deref_run w l sys Hh).
Qed.

Lemma vendor_call_run (op : vendor_op) (w : World) :
  vendor_call op w =
    (with_state w (heap w) (hass_data w) (services w) (listeners w) (platforms w)
       [Vendor op],
     match vendor_outcome w op with None => Ret tt | Some e => Raise e end).
Proof. unfold vendor_call. by destruct (vendor_outcome w op). Qed.

(** If the rest of a computation does not answer [False], neither does it. *)
Lemma seq_not_false {A} (m : M A) (k : M bool) :
  (∀ w, (k w).2 ≠ Ret false) → ∀ w, ((m ;; k) w).2 ≠ Ret false.
Proof.
  intros Hk w. rewrite mbind_run.
  destruct (m w) as [w' [a|e]]; simpl; [apply Hk | congruence].
Qed.

Lemma for_each_nil {A} (f : A → M unit) (w : World) :
  for_each [] f w = (w, Ret tt).
Proof. reflexivity. Qed.

Lemma for_each_cons {A} (x : A) (l : list A) (f : A → M unit) :
  for_each (x :: l) f = (f x ;; for_each l f).
Proof. reflexivity. Qed.


(** Whether or not one raises, the calls made are a prefix of the loop. *)
Lemma for_each_vendor_calls_prefix {A} (op : A → vendor_op) (l : list A) (w : World) :
  ∃ n, trace (for_each l (λ x, vendor_call (op x)) w).1 =
       trace w ++ map (λ x, Vendor (op x)) (take n l).
Proof.
  revert w. induction l as [|x l IH]; intros w.
  - exists 0. rewrite for_each_nil. simpl. by rewrite app_nil_r.
  - rewrite for_each_cons, mbind_run, vendor_call_run.
    destruct (vendor_outcome w (op x)) as [e|].
    + by exists 1.
    + destruct (IH (with_state w (heap w) (hass_data w) (services w)
                      (listeners w) (platforms w) [Vendor (op x)])) as [n Hn].
      exists (S n). rewrite Hn. simpl. by rewrite <- app_assoc.
Qed.

(** ** What each function of the module does *)

(** Bring two worlds to their fields, with the traces right-nested. *)
Ltac wsimpl :=
  unfold with_state, add_trace, set_heap, set_hass_data, set_services,
    set_listeners, set_platforms;
  simpl; rewrite <- ?app_assoc; simpl.

Lemma async_setup_entry_try_run (config_entry : ConfigEntry) (w : World) :
  async_setup_entry_try config_entry w =
    let op := v_Abode (conf_username config_entry) (conf_password config_entry)
                true true true (config_dir w +:+ "/" +:+ DEFAULT_CACHEDB) in
    match vendor_outcome w op with
    | None =>
        let l := fresh (dom (heap w)) in
        (with_state w
           (<[l := {| abode := new_Abode; polling := conf_polling config_entry;
                      devices := []; logout_listener := None |}]> (heap w))
           (Some l) (services w) (listeners w) (platforms w) [Vendor op],
         Ret true)
    | Some ex =>
        if is_connect_error ex then
          (with_state w (heap w) (hass_data w) (services w) (listeners w)
             (platforms w)
             [Vendor op; Log ERROR ("Unable to connect to Abode: " +:+ exn_str ex)],
           Ret false)
        else
          (with_state w (heap w) (hass_data w) (services w) (listeners w)
             (platforms w) [Vendor op],
           Raise ex)
    end.
Proof.
  unfold async_setup_entry_try, try_except.
  rewrite mbind_run. unfold hass_config_path at 1.
  unfold Abode_init. rewrite !mbind_run. rewrite vendor_call_run. simpl.
  destruct (vendor_outcome w _) as [ex|]; simpl.
  - destruct (is_connect_error ex); [|done].
    rewrite mbind_run. unfold LOGGER, emit. by wsimpl.
  - reflexivity.
Qed.

Lemma forward_setups_run (ps : list string) (w : World) :
  for_each ps (λ platform, async_forward_entry_setup platform) w =
    (with_state w (heap w) (hass_data w) (services w) (listeners w)
       (platforms w ++ ps) (map ForwardEntrySetup ps), Ret tt).
Proof.
  revert w. induction ps as [|p ps IH]; intros w.
  - rewrite for_each_nil. simpl. by rewrite app_nil_r, world_eta.
  - rewrite for_each_cons, mbind_run. unfold async_forward_entry_setup at 1.
    rewrite IH. by wsimpl.
Qed.

Lemma forward_unloads_run (ps : list string) (w : World) :
  for_each ps (λ platform, async_forward_entry_unload platform) w =
    (with_state w (heap w) (hass_data w) (services w) (listeners w)
       (foldl (λ acc p, without_platform p acc) (platforms w) ps)
       (map ForwardEntryUnload ps), Ret tt).
Proof.
  revert w. induction ps as [|p ps IH]; intros w.
  - rewrite for_each_nil. simpl. by rewrite world_eta.
  - rewrite for_each_cons, mbind_run. unfold async_forward_entry_unload at 1.
    rewrite IH. by wsimpl.
Qed.

Lemma setup_hass_services_run (w : World) :
  setup_hass_services w =
    (with_state w (heap w) (hass_data w)
       (<[SERVICE_TRIGGER := h_trigger_quick_action]>
          (<[SERVICE_CAPTURE_IMAGE := h_capture_image]>
             (<[SERVICE_SETTINGS := h_change_setting]> (services w))))
       (listeners w) (platforms w)
       [ ServiceRegister SERVICE_SETTINGS h_change_setting;
         ServiceRegister SERVICE_CAPTURE_IMAGE h_capture_image;
         ServiceRegister SERVICE_TRIGGER h_trigger_quick_action ],
     Ret tt).
Proof.
  unfold setup_hass_services, services_register. rewrite !mbind_run.
  by wsimpl.
Qed.

Lemma setup_hass_events_run (w : World) (l : nat) (sys : AbodeSystem) :
  hass_data w = Some l → heap w !! l = Some sys →
  setup_hass_events w =
    if polling sys then (listening w l [], Ret tt)
    else match vendor_outcome w v_events_start with
         | None => (listening w l [Vendor v_events_start], Ret tt)
         | Some e =>
             (with_state w (heap w) (hass_data w) (services w) (listeners w)
                (platforms w) [Vendor v_events_start], Raise e)
         end.
Proof.
  intros Hd Hh. unfold setup_hass_events.
  rewrite (context_run _ w l sys Hd Hh).
  rewrite mbind_run.
  destruct (polling sys); simpl.
  - rewrite mbind_run. unfold bus_async_listen_once at 1.
    rewrite (context_run _ _ l sys) by done.
    unfold update, listening. by wsimpl.
  - rewrite (context_run _ w l sys Hd Hh), vendor_call_run.
    destruct (vendor_outcome w v_events_start); [done|].
    rewrite mbind_run. unfold bus_async_listen_once at 1.
    rewrite (context_run _ _ l sys) by done.
    unfold update, listening. by wsimpl.
Qed.

Lemma subscribe_events_nil (s : AbodeSystem) : subscribe_events [] s = s.
Proof.
  destruct s as [[] ? ? ?]. unfold subscribe_events, set_abode. simpl.
  by rewrite app_nil_r.
Qed.

Lemma subscribe_events_app subs subs' (s : AbodeSystem) :
  subscribe_events subs' (subscribe_events subs s) = subscribe_events (subs ++ subs') s.
Proof.
  unfold subscribe_events, set_abode. simpl. by rewrite app_assoc.
Qed.

Lemma relay_loop_run (evs : list timeline_group) (w : World) (l : nat) (sys : AbodeSystem) :
  hass_data w = Some l → heap w !! l = Some sys →
  (∀ event, event ∈ evs →
     vendor_outcome w (v_add_event_callback event (relay_callback event)) = None) →
  for_each evs (λ event,
      l ← hass_data_DOMAIN; _ ← deref l;
      add_event_callback l event (relay_callback event)) w =
    (with_state w
       (<[l := subscribe_events (map (λ event, (event, relay_callback event)) evs) sys]>
          (heap w))
       (hass_data w) (services w) (listeners w) (platforms w)
       (map (λ event, Vendor (v_add_event_callback event (relay_callback event))) evs),
     Ret tt).
Proof.
  revert w sys. induction evs as [|ev evs IH]; intros w sys Hd Hh Hok.
  - rewrite for_each_nil. simpl.
    rewrite subscribe_events_nil, insert_id by done. by rewrite world_eta.
  - rewrite for_each_cons, mbind_run.
    rewrite (context_run _ w l sys Hd Hh).
    unfold add_event_callback. rewrite mbind_run, vendor_call_run.
    rewrite (Hok ev) by left. unfold update at 1.
    rewrite (IH _ (subscribe_events [(ev, relay_callback ev)] sys)).
    + simpl. unfold with_state. simpl. f_equal. f_equal.
      * by rewrite insert_alter_eq, subscribe_events_app.
      * by rewrite <- app_assoc.
    + done.
    + simpl. by rewrite lookup_alter_eq, Hh.
    + intros e He. simpl. apply Hok. by right.
Qed.

Lemma setup_abode_events_run (w : World) (l : nat) (sys : AbodeSystem) :
  hass_data w = Some l → heap w !! l = Some sys →
  (∀ event, event ∈ events →
     vendor_outcome w (v_add_event_callback event (relay_callback event)) = None) →
  setup_abode_events w =
    (with_state w (<[l := subscribe_events relay_subscriptions sys]> (heap w))
       (hass_data w) (services w) (listeners w) (platforms w)
       (map (λ event, Vendor (v_add_event_callback event (relay_callback event)))
            events),
     Ret tt).
Proof. apply relay_loop_run. Qed.

(** The relay loop either subscribes every category or stops at a call
    that raises. *)
Lemma relay_loop_cases (evs : list timeline_group) (w : World) (l : nat) (sys : AbodeSystem) :
  hass_data w = Some l → heap w !! l = Some sys →
  (∀ event, event ∈ evs →
     vendor_outcome w (v_add_event_callback event (relay_callback event)) = None)
  ∨ (∃ w' e, for_each evs (λ event,
         l ← hass_data_DOMAIN; _ ← deref l;
         add_event_callback l event (relay_callback event)) w = (w', Raise e)).
Proof.
  revert w sys. induction evs as [|ev evs IH]; intros w sys Hd Hh.
  - left. intros e He. by apply elem_of_nil in He.
  - destruct (vendor_outcome w (v_add_event_callback ev (relay_callback ev)))
      as [e|] eqn:Hev.
    + right. rewrite for_each_cons, mbind_run, (context_run _ w l sys Hd Hh).
      unfold add_event_callback. rewrite mbind_run, vendor_call_run, Hev. eauto.
    + set (w1 := with_state w
                   (alter (subscribe_events [(ev, relay_callback ev)]) l (heap w))
                   (hass_data w) (services w) (listeners w) (platforms w)
                   [Vendor (v_add_event_callback ev (relay_callback ev))]).
      destruct (IH w1 (subscribe_events [(ev, relay_callback ev)] sys)) as [Hok|(w'&e&Hr)].
      * done.
      * simpl. by rewrite lookup_alter_eq, Hh.
      * left. intros e [->|He]%elem_of_cons; [done | by apply Hok].
      * right. exists w', e.
        rewrite for_each_cons, mbind_run, (context_run _ w l sys Hd Hh).
        unfold add_event_callback. rewrite mbind_run, vendor_call_run, Hev.
        exact Hr.
Qed.

Lemma async_setup_entry_true (config_entry : ConfigEntry) (w w' : World) :
  async_setup_entry config_entry w = (w', Ret true) →
  w' = set_up config_entry w.
Proof.
  unfold async_setup_entry. rewrite mbind_run, async_setup_entry_try_run.
  simpl.
  destruct (vendor_outcome w _) as [ex|];
    [destruct (is_connect_error ex); discriminate|].
  set (l := fresh (dom (heap w))).
  set (s0 := {| abode := new_Abode; polling := conf_polling config_entry;
                devices := []; logout_listener := None |}).
  rewrite mbind_run, forward_setups_run. rewrite with_state_with_state.
  rewrite mbind_run.
  rewrite (setup_hass_events_run _ l s0); [|done|by simpl; rewrite lookup_insert_eq].
  simpl.
  set (h := fresh (dom (listeners w))).
  set (s1 := set_logout_listener (Some h) s0).
  assert (Halter : alter (set_logout_listener (Some h)) l (<[l:=s0]> (heap w))
                   = <[l:=s1]> (heap w)) by apply alter_insert_eq.
  destruct (conf_polling config_entry) eqn:Hpoll.
  - unfold listening. rewrite with_state_with_state. simpl.
    fold h. rewrite Halter.
    rewrite mbind_run, setup_hass_services_run, with_state_with_state. simpl.
    rewrite mbind_run.
    match goal with |- context [setup_abode_events ?w1] =>
      destruct (relay_loop_cases events w1 l s1) as [Hok|(w2&e&Hr)];
        [done | by simpl; rewrite lookup_insert_eq | |]
    end.
    + rewrite (setup_abode_events_run _ l s1);
        [|done|by simpl; rewrite lookup_insert_eq|done].
      rewrite with_state_with_state. simpl. intros [= <-].
      unfold set_up. fold l h. simpl. rewrite insert_insert_eq.
      by rewrite Hpoll.
    + unfold setup_abode_events. rewrite Hr. discriminate.
  - destruct (vendor_outcome w v_events_start) as [e|]; [discriminate|].
    unfold listening. rewrite with_state_with_state. simpl.
    fold h. rewrite Halter.
    rewrite mbind_run, setup_hass_services_run, with_state_with_state. simpl.
    rewrite mbind_run.
    match goal with |- context [setup_abode_events ?w1] =>
      destruct (relay_loop_cases events w1 l s1) as [Hok|(w2&e&Hr)];
        [done | by simpl; rewrite lookup_insert_eq | |]
    end.
    + rewrite (setup_abode_events_run _ l s1);
        [|done|by simpl; rewrite lookup_insert_eq|done].
      rewrite with_state_with_state. simpl. intros [= <-].
      unfold set_up. fold l h. simpl. rewrite insert_insert_eq.
      by rewrite Hpoll.
    + unfold setup_abode_events. rewrite Hr. discriminate.
Qed.

Lemma services_async_remove_run (name : string) (w : World) :
  services_async_remove name w =
    (with_state w (heap w) (hass_data w) (delete name (services w)) (listeners w)
       (platforms w) [ServiceRemove name], Ret tt).
Proof. reflexivity. Qed.

Lemma remove_listener_run (h : nat) (w : World) :
  remove_listener h w =
    (with_state w (heap w) (hass_data w) (services w) (delete h (listeners w))
       (platforms w) [ListenerRemove h], Ret tt).
Proof. reflexivity. Qed.

(** Both teardown paths, in a world [w] that holds the context [sys]. *)
Section teardown.
Context (w : World) (l : nat) (sys : AbodeSystem).
Hypothesis Hd : hass_data w = Some l.
Hypothesis Hh : heap w !! l = Some sys.

Lemma async_unload_entry_run (config_entry : ConfigEntry) :
  async_unload_entry config_entry w =
    let removed :=
      delete SERVICE_TRIGGER
        (delete SERVICE_CAPTURE_IMAGE (delete SERVICE_SETTINGS (services w))) in
    let unloaded :=
      foldl (λ acc p, without_platform p acc) (platforms w) ABODE_PLATFORMS in
    let pre :=
      [ ServiceRemove SERVICE_SETTINGS; ServiceRemove SERVICE_CAPTURE_IMAGE;
        ServiceRemove SERVICE_TRIGGER ] ++ map ForwardEntryUnload ABODE_PLATFORMS in
    match vendor_outcome w v_events_stop with
    | Some e =>
        (with_state w (heap w) (Some l) removed (listeners w) unloaded
           (pre ++ [Vendor v_events_stop]), Raise e)
    | None =>
        match vendor_outcome w v_logout with
        | Some e =>
            (with_state w (heap w) (Some l) removed (listeners w) unloaded
               (pre ++ [Vendor v_events_stop; Vendor v_logout]), Raise e)
        | None =>
            match logout_listener sys with
            | None =>
                (with_state w (heap w) (Some l) removed (listeners w) unloaded
                   (pre ++ [Vendor v_events_stop; Vendor v_logout]),
                 Raise TypeError)
            | Some h =>
                (with_state w (heap w) None removed (delete h (listeners w))
                   unloaded
                   (pre ++ [Vendor v_events_stop; Vendor v_logout;
                            ListenerRemove h]),
                 Ret true)
            end
        end
    end.
Proof.
  unfold async_unload_entry.
  rewrite mbind_run, services_async_remove_run.
  do 2 (rewrite mbind_run, services_async_remove_run, with_state_with_state; simpl).
  rewrite mbind_run, forward_unloads_run, with_state_with_state. simpl.
  rewrite (context_run _ _ l sys) by done.
  rewrite mbind_run, vendor_call_run, with_state_with_state. simpl.
  destruct (vendor_outcome w v_events_stop) as [e|]; [by rewrite Hd|].
  rewrite (context_run _ _ l sys) by done.
  rewrite mbind_run, vendor_call_run, with_state_with_state. simpl.
  destruct (vendor_outcome w v_logout) as [e|]; [by rewrite Hd|].
  rewrite (context_run _ _ l sys) by done.
  rewrite mbind_run.
  destruct (logout_listener sys) as [h|]; [|by rewrite Hd].
  rewrite remove_listener_run, with_state_with_state. simpl.
  rewrite mbind_run. unfold hass_data_pop. simpl. rewrite Hd.
  unfold set_hass_data, with_state. simpl. by rewrite <- ?app_assoc.
Qed.

Lemma logout_run :
  logout w =
    let same := with_state w (heap w) (hass_data w) (services w) (listeners w)
                  (platforms w) in
    if polling sys then
      match vendor_outcome w v_logout with
      | Some e => (same [Vendor v_logout], Raise e)
      | None => (same [Vendor v_logout; Log INFO "Logged out of Abode"], Ret tt)
      end
    else
      match vendor_outcome w v_events_stop with
      | Some e => (same [Vendor v_events_stop], Raise e)
      | None =>
          match vendor_outcome w v_logout with
          | Some e => (same [Vendor v_events_stop; Vendor v_logout], Raise e)
          | None =>
              (same [Vendor v_events_stop; Vendor v_logout;
                     Log INFO "Logged out of Abode"], Ret tt)
          end
      end.
Proof.
  unfold logout.
  rewrite (context_run _ w l sys Hd Hh), mbind_run.
  destruct (polling sys); simpl.
  - rewrite (context_run _ w l sys Hd Hh), mbind_run, vendor_call_run.
    destruct (vendor_outcome w v_logout); [done|].
    unfold LOGGER, emit. by wsimpl.
  - rewrite (context_run _ w l sys Hd Hh), vendor_call_run.
    destruct (vendor_outcome w v_events_stop); [done|].
    rewrite (context_run _ _ l sys) by done.
    rewrite mbind_run, vendor_call_run. simpl.
    destruct (vendor_outcome w v_logout); [by wsimpl|].
    unfold LOGGER, emit. by wsimpl.
Qed.

End teardown.

Lemma elem_of_unloaded (ps l : list string) (x : string) :
  x ∈ foldl (λ acc p, without_platform p acc) l ps ↔ x ∈ l ∧ x ∉ ps.
Proof.
  revert l. induction ps as [|p ps IH]; intros l; simpl.
  - split; [intros H; split; [done | apply not_elem_of_nil] | by intros [H _]].
  - rewrite IH. unfold without_platform.
    rewrite list_elem_of_filter, not_elem_of_cons. naive_solver.
Qed.

(** ** The relayed event record (C5) *)

(** C5. Whatever the vendor payload holds, the event that the relay
    callback fires on the host bus carries exactly the ten fields
    device_id, device_name, device_type, event_code, event_name,
    event_type, event_utc, user_name, date and time. *)
Theorem relay_fires_ten_fields (event : timeline_group)
    (event_json : gmap string pyval) (w : World) :
  run_callback (relay_callback event) event_json w =
    (add_trace (BusFire event (event_data event_json)) w, Ret tt)
  ∧ dom (event_data event_json) =
      ({[ "device_id"; "device_name"; "device_type"; "event_code";
          "event_name"; "event_type"; "event_utc"; "user_name";
          "date"; "time" ]} : gset string)
  ∧ size (event_data event_json) = 10.
Proof.
  split; [reflexivity|]. split; vm_compute; reflexivity.
Qed.

(** Each of the fields is the payload's value, or the empty string. *)
Lemma event_data_lookup (event_json : gmap string pyval) (key : string) :
  key ∈ dom (event_data event_json) →
  event_data event_json !! key = Some (default (PyStr EmptyString) (event_json !! key)).
Proof.
  intros Hk.
  assert (Hd : dom (event_data event_json) =
      ({[ "device_id"; "device_name"; "device_type"; "event_code";
          "event_name"; "event_type"; "event_utc"; "user_name";
          "date"; "time" ]} : gset string)) by (vm_compute; reflexivity).
  rewrite Hd in Hk. clear Hd.
  rewrite !elem_of_union, !elem_of_singleton in Hk.
  unfold event_data, get_or_empty.
  destruct_or!; subst key; by simplify_map_eq.
Qed.

(** ** Setup: which failures are caught (C3), what a failure leaves (C9) *)

(** C3. When constructing the vendor client raises, setup returns False
    for exactly the vendor exception, the connect timeout and the HTTP
    error; every other exception leaves [async_setup_entry] uncaught. *)
Theorem async_setup_entry_catches (config_entry : ConfigEntry) (w : World) (ex : exn) :
  vendor_outcome w
    (v_Abode (conf_username config_entry) (conf_password config_entry)
       true true true (config_dir w +:+ "/" +:+ DEFAULT_CACHEDB)) = Some ex →
  (async_setup_entry config_entry w).2 =
    match ex with
    | AbodeException _ | ConnectTimeout | HTTPError => Ret false
    | _ => Raise ex
    end.
Proof.
  intros H. unfold async_setup_entry.
  rewrite mbind_run, async_setup_entry_try_run. cbv zeta. rewrite H.
  destruct ex; reflexivity.
Qed.

Lemma async_setup_entry_catches_witness :
  (async_setup_entry push_entry (fresh_world http_down)).2 = Ret false.
Proof.
  exact (async_setup_entry_catches push_entry (fresh_world http_down) HTTPError eq_refl).
Defined.

(** Once the client is constructed, setup does not answer [False]. *)
Lemma async_setup_entry_false_inv (config_entry : ConfigEntry) (w : World) :
  (async_setup_entry config_entry w).2 = Ret false →
  ∃ ex, is_connect_error ex = true ∧
    vendor_outcome w
      (v_Abode (conf_username config_entry) (conf_password config_entry)
         true true true (config_dir w +:+ "/" +:+ DEFAULT_CACHEDB)) = Some ex.
Proof.
  unfold async_setup_entry.
  rewrite mbind_run, async_setup_entry_try_run. cbv zeta.
  destruct (vendor_outcome w _) as [ex|].
  - destruct (is_connect_error ex) eqn:Hc; [eauto | discriminate].
  - intros H. exfalso. revert H.
    repeat apply seq_not_false. intros w'. discriminate.
Qed.

(** C9. A setup that fails (returns False) leaves the host as it was: the
    data slot, the heap of contexts, the service registry, the shutdown
    listeners and the forwarded platforms are unchanged; all it did was
    the constructor call and the error log. *)
Theorem async_setup_entry_failure_is_atomic (config_entry : ConfigEntry) (w : World) :
  (async_setup_entry config_entry w).2 = Ret false →
  hass_data (async_setup_entry config_entry w).1 = hass_data w
  ∧ heap (async_setup_entry config_entry w).1 = heap w
  ∧ services (async_setup_entry config_entry w).1 = services w
  ∧ listeners (async_setup_entry config_entry w).1 = listeners w
  ∧ platforms (async_setup_entry config_entry w).1 = platforms w
  ∧ ∃ ex, effects_since w (async_setup_entry config_entry w).1 =
      [ Vendor (v_Abode (conf_username config_entry) (conf_password config_entry)
                  true true true (config_dir w +:+ "/" +:+ DEFAULT_CACHEDB));
        Log ERROR ("Unable to connect to Abode: " +:+ exn_str ex) ].
Proof.
  intros Hf. destruct (async_setup_entry_false_inv _ _ Hf) as (ex & Hc & Hv).
  unfold async_setup_entry.
  rewrite mbind_run, async_setup_entry_try_run. cbv zeta. rewrite Hv, Hc.
  simpl. repeat split; try reflexivity.
  exists ex. apply effects_since_with_state.
Qed.

Lemma async_setup_entry_failure_is_atomic_witness :
  hass_data (async_setup_entry push_entry (fresh_world http_down)).1 = None
  ∧ services (async_setup_entry push_entry (fresh_world http_down)).1 = ∅
  ∧ platforms (async_setup_entry push_entry (fresh_world http_down)).1 = [].
Proof.
  destruct (async_setup_entry_failure_is_atomic push_entry (fresh_world http_down))
    as (Hd & _ & Hs & _ & Hp & _).
  - reflexivity.
  - rewrite Hd, Hs, Hp. repeat split.
Defined.

(** ** Teardown (C1, C8) *)

(** C1. The steps of [async_unload_entry], run in a world whose context is
    in polling mode: the three services are removed, every platform is
    unloaded, the client is logged out, and the event stream is stopped
    although it was never started.  The shutdown listener [logout], run in
    the same world, does skip the stop call. *)
Theorem async_unload_entry_stops_when_polling (config_entry : ConfigEntry)
    (w : World) (l : nat) (sys : AbodeSystem) (h : nat) :
  hass_data w = Some l → heap w !! l = Some sys →
  logout_listener sys = Some h →
  polling sys = true →
  vendor_outcome w v_events_stop = None →
  vendor_outcome w v_logout = None →
  ∃ w' w'',
    async_unload_entry config_entry w = (w', Ret true)
    ∧ effects_since w w' =
        [ ServiceRemove "change_setting"; ServiceRemove "capture_image";
          ServiceRemove "trigger_quick_action" ]
        ++ map ForwardEntryUnload ABODE_PLATFORMS
        ++ [ Vendor v_events_stop; Vendor v_logout; ListenerRemove h ]
    ∧ (∀ name,
         name ∈ ["change_setting"; "capture_image"; "trigger_quick_action"] →
         services w' !! name = None)
    ∧ (∀ platform, platform ∈ ABODE_PLATFORMS → platform ∉ platforms w')
    ∧ logout w = (w'', Ret tt)
    ∧ effects_since w w'' = [ Vendor v_logout; Log INFO "Logged out of Abode" ].
Proof.
  intros Hd Hh Hl Hp Hstop Hout.
  rewrite (async_unload_entry_run w l sys Hd Hh).
  rewrite (logout_run w l sys Hd Hh).
  cbv zeta. rewrite Hstop, Hout, Hl, Hp.
  eexists _, _. split; [reflexivity|].
  split; [by rewrite effects_since_with_state|].
  split; [|split; [|split; [reflexivity | by rewrite effects_since_with_state]]].
  - intros name Hname. cbn [services with_state].
    unfold SERVICE_SETTINGS, SERVICE_CAPTURE_IMAGE, SERVICE_TRIGGER.
    apply elem_of_cons in Hname as [->|Hname]; [by simplify_map_eq|].
    apply elem_of_cons in Hname as [->|Hname]; [by simplify_map_eq|].
    apply list_elem_of_singleton in Hname as ->. by simplify_map_eq.
  - intros platform Hin Hleft. cbn [platforms with_state] in Hleft.
    apply elem_of_unloaded in Hleft as [_ Hout']. by apply Hout'.
Qed.

Lemma async_unload_entry_stops_when_polling_witness :
(Vendor v_events_start ∉ trace polling_world)
  ∧ ∃ w', async_unload_entry poll_entry polling_world = (w', Ret true)
          ∧ Vendor v_events_stop ∈ effects_since polling_world w'.
Proof.
  split.
  - vm_compute. intros H. repeat (apply elem_of_cons in H as [H|H]; [discriminate|]).
    by apply elem_of_nil in H.
  - destruct (async_unload_entry_stops_when_polling poll_entry polling_world 0
               {| abode := {| event_callbacks := relay_subscriptions;
                              device_callbacks := [] |};
                  polling := true; devices := []; logout_listener := Some 0 |} 0)
      as (w' & _ & Hrun & Heff & _); try (vm_compute; reflexivity).
    exists w'. split; [exact Hrun|]. rewrite Heff. set_solver.
Defined.

(** C8, as the code has it.  The data slot holds one context, and a
    successful setup creates one.  It registers each of the three services
    once and subscribes the relay callback once per category.  After a
    successful unload none of the three services is registered, the
    shutdown listener is detached and the data slot is empty; the relay
    callbacks are not unsubscribed: they stay on the client, whose event
    stream unload has stopped and which it has logged out. *)
Theorem setup_once_unload_all (config_entry : ConfigEntry) (w0 w1 w2 : World) :
  async_setup_entry config_entry w0 = (w1, Ret true) →
  async_unload_entry config_entry w1 = (w2, Ret true) →
  (∃ l sys h,
      hass_data w1 = Some l ∧ heap w0 !! l = None ∧ heap w1 !! l = Some sys
      ∧ heap w1 = <[l := sys]> (heap w0)
      ∧ logout_listener sys = Some h
      ∧ listeners w1 !! h = Some l_logout
      ∧ listeners w2 !! h = None
      ∧ subscribed_event_callbacks w1 l = relay_subscriptions
      ∧ subscribed_event_callbacks w2 l = relay_subscriptions)
  ∧ (∀ name,
       name ∈ ["change_setting"; "capture_image"; "trigger_quick_action"] →
       length (List.filter (registers name) (effects_since w0 w1)) = 1
       ∧ is_Some (services w1 !! name)
       ∧ services w2 !! name = None)
  ∧ (∀ event,
       event ∈ [ALARM_GROUP; ALARM_END_GROUP; PANEL_FAULT_GROUP;
                PANEL_RESTORE_GROUP; AUTOMATION_GROUP] →
       length (List.filter (subscribes_relay event) (effects_since w0 w1)) = 1)
  ∧ Vendor v_events_stop ∈ effects_since w1 w2
  ∧ Vendor v_logout ∈ effects_since w1 w2
  ∧ hass_data w2 = None.
Proof.
  intros Hset Hun. apply async_setup_entry_true in Hset. subst w1.
  set (l := fresh (dom (heap w0))).
  set (h := fresh (dom (listeners w0))).
  set (sys := {| abode := {| event_callbacks := relay_subscriptions;
                             device_callbacks := [] |};
                 polling := conf_polling config_entry; devices := [];
                 logout_listener := Some h |}).
  assert (Hd : hass_data (set_up config_entry w0) = Some l) by reflexivity.
  assert (Hh : heap (set_up config_entry w0) !! l = Some sys)
    by apply lookup_insert_eq.
  rewrite (async_unload_entry_run _ l sys Hd Hh) in Hun. cbv zeta in Hun.
  destruct (vendor_outcome (set_up config_entry w0) v_events_stop); [discriminate|].
  destruct (vendor_outcome (set_up config_entry w0) v_logout); [discriminate|].
  simpl in Hun. injection Hun as <-.
  split; [|split; [|split; [|split; [|split]]]].
  - exists l, sys, h. repeat split; try done.
    + apply not_elem_of_dom, is_fresh.
    + apply lookup_insert_eq.
    + apply lookup_delete_eq.
    + unfold subscribed_event_callbacks, set_up. cbn [heap with_state].
      by rewrite lookup_insert_eq.
    + unfold subscribed_event_callbacks, set_up. cbn [heap with_state].
      by rewrite lookup_insert_eq.
  - intros name Hname.
    unfold set_up at 1. rewrite effects_since_with_state.
    assert (Hcases : name = "change_setting" ∨ name = "capture_image"
                     ∨ name = "trigger_quick_action") by set_solver.
    destruct Hcases as [->|[->| ->]];
      (split; [by destruct (conf_polling config_entry)|]);
      simpl; unfold SERVICE_SETTINGS, SERVICE_CAPTURE_IMAGE, SERVICE_TRIGGER;
      split; by simplify_map_eq.
  - intros event Hev.
    unfold set_up. rewrite effects_since_with_state.
    assert (Hcases : event = ALARM_GROUP ∨ event = ALARM_END_GROUP
                     ∨ event = PANEL_FAULT_GROUP ∨ event = PANEL_RESTORE_GROUP
                     ∨ event = AUTOMATION_GROUP) by set_solver.
    destruct_or!; subst event; by destruct (conf_polling config_entry).
  - rewrite effects_since_with_state. set_solver.
  - rewrite effects_since_with_state. set_solver.
  - reflexivity.
Qed.

Lemma setup_once_unload_all_witness :
  hass_data (async_unload_entry push_entry pushing_world).1 = None
  ∧ Vendor v_logout ∈
      effects_since pushing_world (async_unload_entry push_entry pushing_world).1.
Proof.
  destruct (setup_once_unload_all push_entry (fresh_world quiet_vendor)
              pushing_world (async_unload_entry push_entry pushing_world).1)
    as (_ & _ & _ & _ & Hout & Hslot).
  - vm_compute; reflexivity.
  - vm_compute; reflexivity.
  - by split.
Defined.

(** C8 as stated fails for the event callbacks: after a successful unload
    the five relay callbacks are still subscribed at the client, and an
    event delivered to it is still fired on the host bus. *)
Lemma relay_callbacks_outlive_unload :
  (async_unload_entry push_entry pushing_world).2 = Ret true
  ∧ subscribed_event_callbacks (async_unload_entry push_entry pushing_world).1 0
    = relay_subscriptions
  ∧ deliver_event 0 ALARM_GROUP ∅ (async_unload_entry push_entry pushing_world).1
    = (add_trace (BusFire ALARM_GROUP (event_data ∅))
         (async_unload_entry push_entry pushing_world).1,
       Ret tt).
Proof. split; [|split]; vm_compute; reflexivity. Qed.

(** ** Push or poll (C10) *)

(** C10. [setup_hass_events] calls [events.start] exactly when the polling
    flag of the shared context is false, and [should_poll] of a device
    entity and of an automation entity built on that context is that
    flag. *)
Theorem polling_flag_is_honoured (w : World) (l : nat) (sys : AbodeSystem)
    (d : AbodeDevice) (a : AbodeAutomation) :
  hass_data w = Some l → heap w !! l = Some sys →
  dev_data d = l → aut_data a = l →
  (Vendor v_events_start ∈ effects_since w (setup_hass_events w).1
     ↔ polling sys = false)
  ∧ AbodeDevice_should_poll d w = (w, Ret (polling sys))
  ∧ AbodeAutomation_should_poll a w = (w, Ret (polling sys)).
Proof.
  intros Hd Hh Hdev Haut. split; [|split].
  - rewrite (setup_hass_events_run w l sys Hd Hh).
    destruct (polling sys).
    + unfold listening. simpl. rewrite effects_since_with_state.
      split; [|done]. intros H. exfalso. set_solver.
    + destruct (vendor_outcome w v_events_start); unfold listening; simpl;
        rewrite effects_since_with_state; split; try done; intros _; set_solver.
  - unfold AbodeDevice_should_poll. rewrite mbind_run, Hdev.
    by rewrite (deref_run w l sys Hh).
  - unfold AbodeAutomation_should_poll. rewrite mbind_run, Haut.
    by rewrite (deref_run w l sys Hh).
Qed.

Lemma polling_flag_is_honoured_witness :
  AbodeDevice_should_poll (front_camera 0) (connected_world poll_entry)
    = (connected_world poll_entry, Ret true)
  ∧ Vendor v_events_start ∈
      effects_since (connected_world push_entry)
        (setup_hass_events (connected_world push_entry)).1.
Proof.
  split.
  - apply (polling_flag_is_honoured (connected_world poll_entry) 0
             {| abode := new_Abode; polling := true; devices := [];
                logout_listener := None |}
             (front_camera 0) (away_automation 0 None));
      vm_compute; reflexivity.
  - apply (polling_flag_is_honoured (connected_world push_entry) 0
             {| abode := new_Abode; polling := false; devices := [];
                logout_listener := None |}
             (front_camera 0) (away_automation 0 None));
      vm_compute; reflexivity.
Defined.

(** ** The service handlers (C2, C7) *)

(** C2, as the code has it.  When [set_setting] raises the vendor
    exception, [change_setting] logs it as a warning and returns: the
    exception does not reach the caller and the call is made once. *)
Theorem change_setting_swallows_vendor_error (call : ServiceCall) (w : World)
    (l : nat) (sys : AbodeSystem) (msg : string) :
  hass_data w = Some l → heap w !! l = Some sys →
  vendor_outcome w (v_set_setting (call_setting call) (call_value call))
    = Some (AbodeException msg) →
  run_handler h_change_setting call w =
    (with_state w (heap w) (hass_data w) (services w) (listeners w) (platforms w)
       [ Vendor (v_set_setting (call_setting call) (call_value call));
         Log WARNING msg ],
     Ret tt).
Proof.
  intros Hd Hh Hv. simpl. unfold change_setting, try_except.
  rewrite (context_run _ w l sys Hd Hh), vendor_call_run, Hv. simpl.
  unfold LOGGER, emit. by wsimpl.
Qed.

Lemma change_setting_swallows_vendor_error_witness :
  (call_service "change_setting" setting_call
     (async_setup_entry push_entry (fresh_world setting_rejected)).1).2 = Ret tt.
Proof.
  unfold call_service.
  replace (services (async_setup_entry push_entry (fresh_world setting_rejected)).1
             !! "change_setting") with (Some h_change_setting)
    by (vm_compute; reflexivity).
  erewrite (change_setting_swallows_vendor_error setting_call _ 0 _ "Invalid setting");
    [reflexivity | vm_compute; reflexivity ..].
Defined.

(** C2 as stated fails: a vendor exception raised by a device action
    leaves [capture_image] and [trigger_quick_action] as it is, and nothing
    is logged. *)
Lemma entity_services_propagate_vendor_error :
  call_service "capture_image" camera_call
      (add_devices 0 [front_camera 0]
         (async_setup_entry push_entry (fresh_world capture_fails)).1)
    = (add_trace (Vendor (v_capture "camera.front"))
         (add_devices 0 [front_camera 0]
            (async_setup_entry push_entry (fresh_world capture_fails)).1),
       Raise (AbodeException "Request failed"))
  ∧ call_service "trigger_quick_action" camera_call
      (add_devices 0 [front_camera 0]
         (async_setup_entry push_entry (fresh_world capture_fails)).1)
    = (add_trace (Vendor (v_trigger "camera.front"))
         (add_devices 0 [front_camera 0]
            (async_setup_entry push_entry (fresh_world capture_fails)).1),
       Raise (AbodeException "Request failed")).
Proof. split; vm_compute; reflexivity. Qed.




(** Whatever the device actions do, no device outside the selection is
    reached: the calls made are a prefix of the selected devices. *)
Lemma entity_services_reach_no_other (call : ServiceCall) (w : World)
    (l : nat) (sys : AbodeSystem) (ids : list string) :
  hass_data w = Some l → heap w !! l = Some sys →
  call_entity_id call = Some ids →
  ∃ n, trace (capture_image call w).1 =
       trace w ++ map (λ d, Vendor (v_capture (dev_entity_id d)))
                      (take n (filter (λ d, dev_entity_id d ∈ ids) (devices sys))).
Proof.
  intros Hd Hh Hids. unfold capture_image.
  rewrite (context_run _ w l sys Hd Hh), Hids. simpl.
  rewrite mbind_run. unfold mret, M_ret.
  apply for_each_vendor_calls_prefix.
Qed.

(** ** The event relay (C6) *)

(** C6. [setup_abode_events] subscribes the relay callback for the five
    categories alarm, alarm end, panel fault, panel restore and automation,
    and for no other; an event the vendor then delivers in one of these
    categories is fired on the host bus under the category's name, and an
    event of another category is not relayed. *)
Theorem setup_abode_events_relays_five (w : World) (l : nat) (sys : AbodeSystem) :
  hass_data w = Some l → heap w !! l = Some sys →
  event_callbacks (abode sys) = [] →
  (∀ event, event ∈ events →
     vendor_outcome w (v_add_event_callback event (relay_callback event)) = None) →
  ∃ w' sys',
    setup_abode_events w = (w', Ret tt)
    ∧ effects_since w w' =
        [ Vendor (v_add_event_callback ALARM_GROUP (relay_callback ALARM_GROUP));
          Vendor (v_add_event_callback ALARM_END_GROUP (relay_callback ALARM_END_GROUP));
          Vendor (v_add_event_callback PANEL_FAULT_GROUP (relay_callback PANEL_FAULT_GROUP));
          Vendor (v_add_event_callback PANEL_RESTORE_GROUP (relay_callback PANEL_RESTORE_GROUP));
          Vendor (v_add_event_callback AUTOMATION_GROUP (relay_callback AUTOMATION_GROUP)) ]
    ∧ heap w' !! l = Some sys'
    ∧ event_callbacks (abode sys') =
        [ (ALARM_GROUP, relay_callback ALARM_GROUP);
          (ALARM_END_GROUP, relay_callback ALARM_END_GROUP);
          (PANEL_FAULT_GROUP, relay_callback PANEL_FAULT_GROUP);
          (PANEL_RESTORE_GROUP, relay_callback PANEL_RESTORE_GROUP);
          (AUTOMATION_GROUP, relay_callback AUTOMATION_GROUP) ]
    ∧ ∀ event event_json,
        deliver_event l event event_json w' =
          (if bool_decide (event ∈ [ALARM_GROUP; ALARM_END_GROUP; PANEL_FAULT_GROUP;
                                    PANEL_RESTORE_GROUP; AUTOMATION_GROUP])
           then add_trace (BusFire event (event_data event_json)) w'
           else w',
           Ret tt).
Proof.
  intros Hd Hh Hnone Hok.
  rewrite (setup_abode_events_run w l sys Hd Hh Hok).
  eexists _, (subscribe_events relay_subscriptions sys).
  split; [reflexivity|]. split; [by rewrite effects_since_with_state|].
  split; [by simpl; rewrite lookup_insert_eq|].
  split; [by simpl; rewrite Hnone|].
  intros event event_json. unfold deliver_event.
  rewrite mbind_run. erewrite deref_run by (by simpl; rewrite lookup_insert_eq).
  simpl. rewrite Hnone. simpl.
  destruct event; simpl; try reflexivity.
Qed.

Lemma setup_abode_events_relays_five_witness :
  ∃ w', setup_abode_events (connected_world push_entry) = (w', Ret tt)
        ∧ deliver_event 0 ALARM_GROUP {[ "event_code" := PyStr "1140" ]} w'
          = (add_trace (BusFire ALARM_GROUP
                          (event_data {[ "event_code" := PyStr "1140" ]})) w',
             Ret tt)
        ∧ deliver_event 0 (OTHER_GROUP "abode_arm") ∅ w' = (w', Ret tt).
Proof.
  destruct (setup_abode_events_relays_five (connected_world push_entry) 0
              {| abode := new_Abode; polling := false; devices := [];
                 logout_listener := None |})
    as (w' & sys' & Hrun & _ & _ & _ & Hdel).
  - vm_compute; reflexivity.
  - vm_compute; reflexivity.
  - reflexivity.
  - intros event _. reflexivity.
  - exists w'. split; [exact Hrun|]. split; apply Hdel.
Defined.

(** ** The entities (C4) *)

(** C4, as the code has it.  Attaching a device entity subscribes a device
    callback that schedules a host state update, and detaching it removes
    every callback of that device.  Attaching an automation entity that
    was given an event category subscribes an event callback that
    refreshes the automation and schedules a host state update; attaching
    one that was given none (or an empty one) does nothing at all. *)
Theorem entity_callbacks_follow_attachment (d : AbodeDevice) (a : AbodeAutomation)
    (event : timeline_group) (w : World) (sys_d sys_a : AbodeSystem) :
  heap w !! dev_data d = Some sys_d →
  heap w !! aut_data a = Some sys_a →
  aut_event a = Some event → event_truthy (aut_event a) = true →
  vendor_outcome w (v_add_device_callback (dev_device_id d) (device_update_callback d))
    = None →
  vendor_outcome w (v_remove_all_device_callbacks (dev_device_id d)) = None →
  vendor_outcome w (v_add_event_callback event (automation_update_callback a))
    = None →
  (∃ w1 w2,
      AbodeDevice_async_added_to_hass d w = (w1, Ret tt)
      ∧ subscribed_device_callbacks w1 (dev_data d) =
          device_callbacks (abode sys_d)
          ++ [(dev_device_id d, device_update_callback d)]
      ∧ AbodeDevice_async_will_remove_from_hass d w1 = (w2, Ret tt)
      ∧ ∀ cb, (dev_device_id d, cb) ∉ subscribed_device_callbacks w2 (dev_data d))
  ∧ (∀ payload w',
       run_callback (device_update_callback d) payload w' =
         (add_trace (ScheduleUpdate (dev_entity_id d)) w', Ret tt))
  ∧ (∃ w1,
       AbodeAutomation_async_added_to_hass a w = (w1, Ret tt)
       ∧ subscribed_event_callbacks w1 (aut_data a) =
           event_callbacks (abode sys_a)
           ++ [(event, automation_update_callback a)])
  ∧ (∀ payload w',
       vendor_outcome w' (v_automation_refresh (aut_automation_id a)) = None →
       run_callback (automation_update_callback a) payload w' =
         (add_trace (ScheduleUpdate (aut_entity_id a))
            (add_trace (Vendor (v_automation_refresh (aut_automation_id a))) w'),
          Ret tt))
  ∧ (∀ a' w',
       event_truthy (aut_event a') = false →
       AbodeAutomation_async_added_to_hass a' w' = (w', Ret tt)).
Proof.
  intros Hd Ha Hev Htruthy Hadd Hrem Hsub.
  split; [|split; [|split; [|split]]].
  - eexists _, _.
    unfold AbodeDevice_async_added_to_hass, AbodeDevice_async_will_remove_from_hass.
    rewrite mbind_run, (deref_run w _ sys_d Hd).
    unfold async_add_job, add_device_callback.
    rewrite mbind_run, vendor_call_run, Hadd. unfold update. simpl.
    split; [reflexivity|].
    split.
    { unfold subscribed_device_callbacks. simpl.
      by rewrite lookup_alter_eq, Hd. }
    rewrite mbind_run. erewrite deref_run
      by (simpl; rewrite lookup_alter_eq, Hd; reflexivity).
    unfold remove_all_device_callbacks.
    rewrite mbind_run, vendor_call_run. simpl. rewrite Hrem. simpl.
    split; [reflexivity|].
    intros cb. unfold subscribed_device_callbacks. simpl.
    rewrite !lookup_alter_eq, Hd. simpl.
    rewrite list_elem_of_filter. simpl. naive_solver.
  - reflexivity.
  - eexists. unfold AbodeAutomation_async_added_to_hass.
    rewrite Htruthy, Hev.
    rewrite mbind_run, (deref_run w _ sys_a Ha).
    unfold async_add_job, add_event_callback.
    rewrite mbind_run, vendor_call_run, Hsub. unfold update. simpl.
    split; [reflexivity|].
    unfold subscribed_event_callbacks. simpl.
    by rewrite lookup_alter_eq, Ha.
  - intros payload w' Hrefresh. simpl.
    unfold AbodeAutomation_update_callback.
    rewrite mbind_run. unfold vendor_call. rewrite Hrefresh. reflexivity.
  - intros a' w' Hfalse. unfold AbodeAutomation_async_added_to_hass.
    destruct (aut_event a') as [event'|]; [by rewrite Hfalse | reflexivity].
Qed.

Lemma entity_callbacks_follow_attachment_witness :
  ∃ w1,
    AbodeAutomation_async_added_to_hass
      (away_automation 0 (Some AUTOMATION_GROUP)) pushing_world = (w1, Ret tt)
    ∧ subscribed_event_callbacks w1 0 =
        relay_subscriptions
        ++ [(AUTOMATION_GROUP,
             automation_update_callback (away_automation 0 (Some AUTOMATION_GROUP)))].
Proof.
  destruct (entity_callbacks_follow_attachment (front_camera 0)
              (away_automation 0 (Some AUTOMATION_GROUP)) AUTOMATION_GROUP
              pushing_world
              {| abode := {| event_callbacks := relay_subscriptions;
                             device_callbacks := [] |};
                 polling := false; devices := []; logout_listener := Some 0 |}
              {| abode := {| event_callbacks := relay_subscriptions;
                             device_callbacks := [] |};
                 polling := false; devices := []; logout_listener := Some 0 |})
    as (_ & _ & Haut & _); try (vm_compute; reflexivity).
  exact Haut.
Defined.

(** C4 as stated fails for the automation entity: without an event
    category attaching subscribes nothing, and with one the callback is
    still subscribed after the entity is detached. *)
Lemma automation_attachment_differs :
  AbodeAutomation_async_added_to_hass (away_automation 0 None) pushing_world
    = (pushing_world, Ret tt)
  ∧ subscribed_event_callbacks
      (AbodeAutomation_async_will_remove_from_hass
         (away_automation 0 (Some AUTOMATION_GROUP))
         (AbodeAutomation_async_added_to_hass
            (away_automation 0 (Some AUTOMATION_GROUP)) pushing_world).1).1 0
    = relay_subscriptions
      ++ [(AUTOMATION_GROUP,
           automation_update_callback (away_automation 0 (Some AUTOMATION_GROUP)))].
Proof. split; vm_compute; reflexivity. Qed.

(** * Further properties of the module *)

(** ** The shutdown listener *)

(** X1. [logout] stops the event stream only in push mode, then logs out
    and reports it; the context, the services and the listeners stay as
    they are. *)
Theorem logout_stops_only_when_pushing (w : World) (l : nat) (sys : AbodeSystem) :
  hass_data w = Some l → heap w !! l = Some sys →
  vendor_outcome w v_events_stop = None →
  vendor_outcome w v_logout = None →
  logout w =
    (with_state w (heap w) (hass_data w) (services w) (listeners w) (platforms w)
       ((if polling sys then [] else [Vendor v_events_stop])
        ++ [Vendor v_logout; Log INFO "Logged out of Abode"]),
     Ret tt).
Proof.
  intros Hd Hh Hstop Hout. rewrite (logout_run w l sys Hd Hh). cbv zeta.
  rewrite Hstop, Hout. by destruct (polling sys).
Qed.

Lemma logout_stops_only_when_pushing_witness :
  effects_since pushing_world (logout pushing_world).1
    = [Vendor v_events_stop; Vendor v_logout; Log INFO "Logged out of Abode"]
  ∧ effects_since polling_world (logout polling_world).1
    = [Vendor v_logout; Log INFO "Logged out of Abode"].
Proof.
  split.
  - rewrite (logout_stops_only_when_pushing pushing_world 0 (set_up_context false 0))
      by (vm_compute; reflexivity).
    cbn [fst]. by rewrite effects_since_with_state.
  - rewrite (logout_stops_only_when_pushing polling_world 0 (set_up_context true 0))
      by (vm_compute; reflexivity).
    cbn [fst]. by rewrite effects_since_with_state.
Defined.

(** No element of an explicit list is the effect looked for. *)
Ltac not_in_effects :=
  let H := fresh "H" in
  intros H;
  repeat (apply elem_of_cons in H as [H|H]; [discriminate|]);
  by apply elem_of_nil in H.

(** X2. The shutdown listener stops what setup started: after a
    successful setup, [logout] calls [events.stop] exactly when that setup
    called [events.start]. *)
Theorem logout_stops_what_setup_started (config_entry : ConfigEntry) (w0 w1 : World) :
  async_setup_entry config_entry w0 = (w1, Ret true) →
  (Vendor v_events_start ∈ effects_since w0 w1
   ↔ Vendor v_events_stop ∈ effects_since w1 (logout w1).1).
Proof.
  intros Hset. apply async_setup_entry_true in Hset. subst w1.
  set (l := fresh (dom (heap w0))).
  set (h := fresh (dom (listeners w0))).
  assert (Hd : hass_data (set_up config_entry w0) = Some l) by reflexivity.
  assert (Hh : heap (set_up config_entry w0) !! l
               = Some (set_up_context (conf_polling config_entry) h))
    by apply lookup_insert_eq.
  rewrite (logout_run _ l _ Hd Hh). cbv zeta.
  unfold set_up at 1. rewrite effects_since_with_state.
  cbn [polling set_up_context].
  destruct (conf_polling config_entry); cbn [app map ABODE_PLATFORMS events].
  - split.
    + not_in_effects.
    + destruct (vendor_outcome _ v_logout); cbn [fst];
        rewrite effects_since_with_state; not_in_effects.
  - split; intros _.
    + destruct (vendor_outcome _ v_events_stop);
        [|destruct (vendor_outcome _ v_logout)]; cbn [fst];
        rewrite effects_since_with_state; set_solver.
    + set_solver.
Qed.

Lemma logout_stops_what_setup_started_witness :
  Vendor v_events_stop ∈ effects_since pushing_world (logout pushing_world).1.
Proof.
  apply (logout_stops_what_setup_started push_entry (fresh_world quiet_vendor)
           pushing_world).
  - vm_compute; reflexivity.
  - vm_compute. set_solver.
Defined.

(** ** The service handlers at their edges *)

(** X3. Without a context in the data slot the handlers and the
    shutdown listener raise [KeyError] before any vendor call; the
    [except AbodeException] of [change_setting] does not catch it. *)
Theorem handlers_need_the_context (call : ServiceCall) (w : World) :
  hass_data w = None →
  change_setting call w = (w, Raise KeyError)
  ∧ capture_image call w = (w, Raise KeyError)
  ∧ trigger_quick_action call w = (w, Raise KeyError)
  ∧ logout w = (w, Raise KeyError).
Proof.
  intros Hd.
  unfold change_setting, capture_image, trigger_quick_action, logout, try_except.
  rewrite !mbind_run. unfold hass_data_DOMAIN. by rewrite Hd.
Qed.

Lemma handlers_need_the_context_witness :
  change_setting setting_call (fresh_world quiet_vendor)
    = (fresh_world quiet_vendor, Raise KeyError).
Proof.
  apply (handlers_need_the_context setting_call (fresh_world quiet_vendor)).
  reflexivity.
Defined.

(** X4. A call without an entity-id list: with devices in the registry
    the membership test raises [TypeError] and no device is reached; with
    an empty registry the handler returns, having done nothing. *)
Theorem entity_services_without_ids (call : ServiceCall) (w : World)
    (l : nat) (sys : AbodeSystem) :
  hass_data w = Some l → heap w !! l = Some sys →
  call_entity_id call = None →
  capture_image call w
    = (w, match devices sys with [] => Ret tt | _ :: _ => Raise TypeError end)
  ∧ trigger_quick_action call w
    = (w, match devices sys with [] => Ret tt | _ :: _ => Raise TypeError end).
Proof.
  intros Hd Hh Hids. unfold capture_image, trigger_quick_action.
  rewrite !(context_run _ w l sys Hd Hh), Hids. simpl.
  rewrite !mbind_run. by destruct (devices sys).
Qed.

Lemma entity_services_without_ids_witness :
  capture_image setting_call pushing_world = (pushing_world, Ret tt)
  ∧ capture_image setting_call (add_devices 0 [front_camera 0] pushing_world)
    = (add_devices 0 [front_camera 0] pushing_world, Raise TypeError).
Proof.
  split.
  - apply (entity_services_without_ids setting_call pushing_world 0
             (set_up_context false 0)); vm_compute; reflexivity.
  - refine (proj1 (entity_services_without_ids setting_call
             (add_devices 0 [front_camera 0] pushing_world) 0
             {| abode := {| event_callbacks := relay_subscriptions;
                            device_callbacks := [] |};
                polling := false; devices := [front_camera 0];
                logout_listener := Some 0 |} _ _ _)); vm_compute; reflexivity.
Defined.

(** X5. The entity-id list is used as a set: two lists with the same
    members give the same run, whatever their order and repetitions. *)
Theorem entity_ids_are_a_set (call1 call2 : ServiceCall) (ids1 ids2 : list string)
    (w : World) :
  call_entity_id call1 = Some ids1 → call_entity_id call2 = Some ids2 →
  (∀ x, x ∈ ids1 ↔ x ∈ ids2) →
  capture_image call1 w = capture_image call2 w
  ∧ trigger_quick_action call1 w = trigger_quick_action call2 w.
Proof.
  intros H1 H2 Hsame. unfold capture_image, trigger_quick_action.
  rewrite H1, H2. rewrite !mbind_run.
  destruct (hass_data_DOMAIN w) as [w1 [l|e]]; [|done].
  rewrite !mbind_run. destruct (deref l w1) as [w2 [sys|e]]; [|done].
  rewrite !mbind_run. cbn [select_devices]. unfold mret, M_ret.
  by rewrite (list_filter_iff (λ d, dev_entity_id d ∈ ids1)
                (λ d, dev_entity_id d ∈ ids2) (devices sys))
    by (intros d; apply Hsame).
Qed.

Lemma entity_ids_are_a_set_witness :
  capture_image camera_call (add_devices 0 [front_camera 0] pushing_world)
  = capture_image
      {| call_setting := None; call_value := None;
         call_entity_id := Some ["camera.front"; "camera.front"] |}
      (add_devices 0 [front_camera 0] pushing_world).
Proof.
  apply (entity_ids_are_a_set camera_call _ ["camera.front"]
           ["camera.front"; "camera.front"]); [reflexivity | reflexivity |].
  intros x. rewrite !elem_of_cons. tauto.
Defined.

(** A loop of vendor calls ends at the first call that raises. *)
Lemma for_each_vendor_calls_raise {A} (op : A → vendor_op) (pre : list A) (x : A)
    (post : list A) (w : World) (e : exn) :
  (∀ y, y ∈ pre → vendor_outcome w (op y) = None) →
  vendor_outcome w (op x) = Some e →
  for_each (pre ++ x :: post) (λ y, vendor_call (op y)) w =
    (with_state w (heap w) (hass_data w) (services w) (listeners w) (platforms w)
       (map (λ y, Vendor (op y)) (pre ++ [x])), Raise e).
Proof.
  revert w. induction pre as [|y pre IH]; intros w Hok Hx.
  - cbn [app]. by rewrite for_each_cons, mbind_run, vendor_call_run, Hx.
  - cbn [app]. rewrite for_each_cons, mbind_run, vendor_call_run.
    rewrite (Hok y) by left.
    rewrite IH.
    + simpl. by rewrite with_state_with_state.
    + intros z Hz. simpl. apply Hok. by right.
    + exact Hx.
Qed.

(** X6. [capture_image] stops at the first device whose capture raises:
    the exception leaves the handler, and the selected devices after it
    are not reached. *)
Theorem capture_image_stops_at_first_failure (call : ServiceCall) (w : World)
    (l : nat) (sys : AbodeSystem) (ids : list string)
    (pre : list AbodeDevice) (d : AbodeDevice) (post : list AbodeDevice) (e : exn) :
  hass_data w = Some l → heap w !! l = Some sys →
  call_entity_id call = Some ids →
  filter (λ d, dev_entity_id d ∈ ids) (devices sys) = pre ++ d :: post →
  (∀ x, x ∈ pre → vendor_outcome w (v_capture (dev_entity_id x)) = None) →
  vendor_outcome w (v_capture (dev_entity_id d)) = Some e →
  capture_image call w =
    (with_state w (heap w) (hass_data w) (services w) (listeners w) (platforms w)
       (map (λ x, Vendor (v_capture (dev_entity_id x))) (pre ++ [d])),
     Raise e).
Proof.
  intros Hd Hh Hids Hsel Hpre He. unfold capture_image.
  rewrite (context_run _ w l sys Hd Hh), Hids. cbn [select_devices].
  rewrite mbind_run. unfold mret, M_ret. rewrite Hsel.
  by apply for_each_vendor_calls_raise.
Qed.

Lemma capture_image_stops_at_first_failure_witness :
  capture_image
    {| call_setting := None; call_value := None;
       call_entity_id := Some ["camera.front"; "camera.back"; "camera.porch"] |}
    (add_devices 0
       [ front_camera 0; back_camera 0;
         {| dev_data := 0; dev_device_id := "XF:3"; dev_entity_id := "camera.porch" |} ]
       (async_setup_entry push_entry (fresh_world back_camera_fails)).1)
  = (add_trace (Vendor (v_capture "camera.back"))
       (add_trace (Vendor (v_capture "camera.front"))
          (add_devices 0
             [ front_camera 0; back_camera 0;
               {| dev_data := 0; dev_device_id := "XF:3";
                  dev_entity_id := "camera.porch" |} ]
             (async_setup_entry push_entry (fresh_world back_camera_fails)).1)),
     Raise (AbodeException "Request failed")).
Proof.
  rewrite (capture_image_stops_at_first_failure _ _ 0
             {| abode := {| event_callbacks := relay_subscriptions;
                            device_callbacks := [] |};
                polling := false;
                devices := [ front_camera 0; back_camera 0;
                             {| dev_data := 0; dev_device_id := "XF:3";
                                dev_entity_id := "camera.porch" |} ];
                logout_listener := Some 0 |}
             ["camera.front"; "camera.back"; "camera.porch"]
             [front_camera 0] (back_camera 0)
             [{| dev_data := 0; dev_device_id := "XF:3";
                 dev_entity_id := "camera.porch" |}]
             (AbodeException "Request failed")).
  - vm_compute; reflexivity.
  - vm_compute; reflexivity.
  - vm_compute; reflexivity.
  - reflexivity.
  - vm_compute; reflexivity.
  - intros x Hx. apply list_elem_of_singleton in Hx as ->. reflexivity.
  - reflexivity.
Defined.

(** X7. [change_setting] swallows the vendor exception and nothing else:
    an exception of another class raised by [set_setting] leaves the
    handler without a warning, and a call that returns is not logged. *)
Theorem change_setting_catches_only_the_vendor_exception (call : ServiceCall)
    (w : World) (l : nat) (sys : AbodeSystem) :
  hass_data w = Some l → heap w !! l = Some sys →
  change_setting call w =
    match vendor_outcome w (v_set_setting (call_setting call) (call_value call)) with
    | None =>
        (with_state w (heap w) (hass_data w) (services w) (listeners w)
           (platforms w)
           [Vendor (v_set_setting (call_setting call) (call_value call))],
         Ret tt)
    | Some (AbodeException msg) =>
        (with_state w (heap w) (hass_data w) (services w) (listeners w)
           (platforms w)
           [Vendor (v_set_setting (call_setting call) (call_value call));
            Log WARNING msg],
         Ret tt)
    | Some e =>
        (with_state w (heap w) (hass_data w) (services w) (listeners w)
           (platforms w)
           [Vendor (v_set_setting (call_setting call) (call_value call))],
         Raise e)
    end.
Proof.
  intros Hd Hh. unfold change_setting, try_except.
  rewrite (context_run _ w l sys Hd Hh), vendor_call_run.
  destruct (vendor_outcome w _) as [[]|]; try reflexivity.
  simpl. unfold LOGGER, emit. by wsimpl.
Qed.

Lemma change_setting_catches_only_the_vendor_exception_witness :
  (change_setting setting_call
     (async_setup_entry push_entry (fresh_world setting_times_out)).1).2
  = Raise ConnectTimeout.
Proof.
  rewrite (change_setting_catches_only_the_vendor_exception setting_call _ 0
             (set_up_context false 0)) by (vm_compute; reflexivity).
  reflexivity.
Defined.

(** ** Setup and unload, when something goes wrong *)

(** X8. Only the constructor call is guarded.  When the client is
    constructed and [events.start] raises, the exception leaves
    [async_setup_entry] even if it is the vendor exception, and nothing
    is rolled back: the context stays in the data slot and the eight
    platforms are forwarded, while no service and no listener is
    registered. *)
Theorem async_setup_entry_does_not_roll_back (config_entry : ConfigEntry)
    (w : World) (e : exn) :
  conf_polling config_entry = false →
  vendor_outcome w
    (v_Abode (conf_username config_entry) (conf_password config_entry)
       true true true (config_dir w +:+ "/" +:+ DEFAULT_CACHEDB)) = None →
  vendor_outcome w v_events_start = Some e →
  async_setup_entry config_entry w =
    (with_state w
       (<[fresh (dom (heap w)) :=
            {| abode := new_Abode; polling := false; devices := [];
               logout_listener := None |}]> (heap w))
       (Some (fresh (dom (heap w)))) (services w) (listeners w)
       (platforms w ++ ABODE_PLATFORMS)
       ([Vendor (v_Abode (conf_username config_entry) (conf_password config_entry)
                   true true true (config_dir w +:+ "/" +:+ DEFAULT_CACHEDB))]
        ++ map ForwardEntrySetup ABODE_PLATFORMS
        ++ [Vendor v_events_start]),
     Raise e).
Proof.
  intros Hpoll Hinit Hstart. unfold async_setup_entry.
  rewrite mbind_run, async_setup_entry_try_run. cbv zeta. rewrite Hinit, Hpoll.
  rewrite mbind_run, forward_setups_run, with_state_with_state.
  rewrite mbind_run.
  erewrite setup_hass_events_run;
    [|reflexivity|by cbn [heap with_state]; rewrite lookup_insert_eq].
  cbn [polling]. cbn [vendor_outcome with_state]. rewrite Hstart.
  rewrite with_state_with_state. cbn [heap hass_data services listeners platforms with_state].
  by rewrite <- app_assoc.
Qed.

Lemma async_setup_entry_does_not_roll_back_witness :
  (async_setup_entry push_entry (fresh_world start_fails)).2
    = Raise (AbodeException "Socket refused")
  ∧ hass_data (async_setup_entry push_entry (fresh_world start_fails)).1 = Some 0
  ∧ services (async_setup_entry push_entry (fresh_world start_fails)).1 = ∅.
Proof.
  rewrite (async_setup_entry_does_not_roll_back push_entry (fresh_world start_fails)
             (AbodeException "Socket refused")) by reflexivity.
  repeat split.
Defined.

Lemma filter_all {A} (P : A → Prop) `{∀ x, Decision (P x)} (l : list A) :
  (∀ x, x ∈ l → P x) → filter P l = l.
Proof.
  induction l as [|x l IH]; intros Hall; [done|].
  rewrite filter_cons_True by (apply Hall; left).
  f_equal. apply IH. intros y Hy. apply Hall. by right.
Qed.

Lemma filter_none {A} (P : A → Prop) `{∀ x, Decision (P x)} (l : list A) :
  (∀ x, x ∈ l → ¬ P x) → filter P l = [].
Proof.
  induction l as [|x l IH]; intros Hnone; [done|].
  rewrite filter_cons_False by (apply Hnone; left).
  apply IH. intros y Hy. apply Hnone. by right.
Qed.

(** Unloading the platforms [ps] one by one keeps what is not in [ps]. *)
Lemma unloaded_filter (ps l : list string) :
  foldl (λ acc p, without_platform p acc) l ps = filter (λ x, x ∉ ps) l.
Proof.
  revert l. induction ps as [|p ps IH]; intros l; simpl.
  - symmetry. apply filter_all. intros x _. apply not_elem_of_nil.
  - rewrite IH. unfold without_platform. rewrite list_filter_filter.
    apply list_filter_iff. intros x. rewrite not_elem_of_cons. tauto.
Qed.

(** X9. Setup and unload undo each other on the host: when none of the
    three services and none of the eight platforms was there before, a
    successful setup followed by a successful unload leaves the service
    registry, the shutdown listeners and the forwarded platforms as they
    were, and the data slot empty. *)
Theorem setup_unload_round_trip (config_entry : ConfigEntry) (w0 w1 w2 : World) :
  async_setup_entry config_entry w0 = (w1, Ret true) →
  async_unload_entry config_entry w1 = (w2, Ret true) →
  (∀ name, name ∈ [SERVICE_SETTINGS; SERVICE_CAPTURE_IMAGE; SERVICE_TRIGGER] →
           services w0 !! name = None) →
  (∀ platform, platform ∈ ABODE_PLATFORMS → platform ∉ platforms w0) →
  services w2 = services w0
  ∧ listeners w2 = listeners w0
  ∧ platforms w2 = platforms w0
  ∧ hass_data w2 = None.
Proof.
  intros Hset Hun Hserv Hplat. apply async_setup_entry_true in Hset. subst w1.
  set (l := fresh (dom (heap w0))).
  set (h := fresh (dom (listeners w0))).
  assert (Hd : hass_data (set_up config_entry w0) = Some l) by reflexivity.
  assert (Hh : heap (set_up config_entry w0) !! l
               = Some (set_up_context (conf_polling config_entry) h))
    by apply lookup_insert_eq.
  rewrite (async_unload_entry_run _ l _ Hd Hh) in Hun. cbv zeta in Hun.
  destruct (vendor_outcome (set_up config_entry w0) v_events_stop); [discriminate|].
  destruct (vendor_outcome (set_up config_entry w0) v_logout); [discriminate|].
  cbn [logout_listener set_up_context] in Hun. injection Hun as <-.
  cbn [services listeners platforms hass_data with_state set_up].
  fold l h. split; [|split; [|split]].
  - apply map_eq. intros k.
    destruct (decide (k = SERVICE_TRIGGER)) as [->|Ht].
    { rewrite lookup_delete_eq. symmetry. apply Hserv. set_solver. }
    rewrite lookup_delete_ne by done.
    destruct (decide (k = SERVICE_CAPTURE_IMAGE)) as [->|Hc].
    { rewrite lookup_delete_eq. symmetry. apply Hserv. set_solver. }
    rewrite lookup_delete_ne by done.
    destruct (decide (k = SERVICE_SETTINGS)) as [->|Hs].
    { rewrite lookup_delete_eq. symmetry. apply Hserv. set_solver. }
    rewrite lookup_delete_ne by done.
    by rewrite !lookup_insert_ne by done.
  - apply delete_insert_id. apply not_elem_of_dom, is_fresh.
  - change (foldl (λ acc p, without_platform p acc)
              (platforms w0 ++ ABODE_PLATFORMS) ABODE_PLATFORMS = platforms w0).
    rewrite unloaded_filter, filter_app.
    rewrite (filter_all _ (platforms w0)), (filter_none _ ABODE_PLATFORMS).
    + apply app_nil_r.
    + intros x Hx Hnot. by apply Hnot.
    + intros x Hx Hin. by apply (Hplat x).
  - reflexivity.
Qed.

Lemma setup_unload_round_trip_witness :
  services (async_unload_entry push_entry pushing_world).1 = ∅
  ∧ listeners (async_unload_entry push_entry pushing_world).1 = ∅
  ∧ platforms (async_unload_entry push_entry pushing_world).1 = []
  ∧ hass_data (async_unload_entry push_entry pushing_world).1 = None.
Proof.
  apply (setup_unload_round_trip push_entry (fresh_world quiet_vendor)
           pushing_world (async_unload_entry push_entry pushing_world).1).
  - vm_compute; reflexivity.
  - vm_compute; reflexivity.
  - intros name _. reflexivity.
  - intros platform _. apply not_elem_of_nil.
Defined.

(** X10. Unload without a context (never set up, or unloaded before):
    the three services are removed and the platforms unloaded first, then
    [hass.data[DOMAIN]] raises [KeyError], before any vendor call. *)
Theorem async_unload_entry_needs_the_context (config_entry : ConfigEntry) (w : World) :
  hass_data w = None →
  async_unload_entry config_entry w =
    (with_state w (heap w) None
       (delete SERVICE_TRIGGER
          (delete SERVICE_CAPTURE_IMAGE (delete SERVICE_SETTINGS (services w))))
       (listeners w)
       (filter (λ p, p ∉ ABODE_PLATFORMS) (platforms w))
       ([ ServiceRemove SERVICE_SETTINGS; ServiceRemove SERVICE_CAPTURE_IMAGE;
          ServiceRemove SERVICE_TRIGGER ]
        ++ map ForwardEntryUnload ABODE_PLATFORMS),
     Raise KeyError).
Proof.
  intros Hd. unfold async_unload_entry.
  rewrite mbind_run, services_async_remove_run.
  do 2 (rewrite mbind_run, services_async_remove_run, with_state_with_state;
        cbn [heap hass_data services listeners platforms with_state]).
  rewrite mbind_run, forward_unloads_run, with_state_with_state.
  cbn [heap hass_data services listeners platforms with_state].
  rewrite mbind_run. unfold hass_data_DOMAIN at 1.
  cbn [hass_data with_state]. rewrite Hd, unloaded_filter.
  by rewrite <- !app_assoc.
Qed.

Lemma async_unload_entry_needs_the_context_witness :
  (async_unload_entry push_entry
     (async_unload_entry push_entry pushing_world).1).2 = Raise KeyError.
Proof.
  rewrite (async_unload_entry_needs_the_context push_entry
             (async_unload_entry push_entry pushing_world).1)
    by (vm_compute; reflexivity).
  reflexivity.
Defined.

(** X11. When [events.stop] or [logout] raises during unload, the
    exception leaves [async_unload_entry] half way: the services are
    already removed, while the context stays in the data slot and the
    shutdown listener stays attached; after a failing stop the client is
    not logged out. *)
Theorem async_unload_entry_stops_half_way (config_entry : ConfigEntry) (w : World)
    (l : nat) (sys : AbodeSystem) (e : exn) :
  hass_data w = Some l → heap w !! l = Some sys →
  vendor_outcome w v_events_stop = Some e
  ∨ (vendor_outcome w v_events_stop = None ∧ vendor_outcome w v_logout = Some e) →
  (async_unload_entry config_entry w).2 = Raise e
  ∧ hass_data (async_unload_entry config_entry w).1 = Some l
  ∧ heap (async_unload_entry config_entry w).1 = heap w
  ∧ listeners (async_unload_entry config_entry w).1 = listeners w
  ∧ services (async_unload_entry config_entry w).1 =
      delete SERVICE_TRIGGER
        (delete SERVICE_CAPTURE_IMAGE (delete SERVICE_SETTINGS (services w)))
  ∧ (vendor_outcome w v_events_stop = Some e →
     Vendor v_logout ∉ effects_since w (async_unload_entry config_entry w).1).
Proof.
  intros Hd Hh Hfail. rewrite (async_unload_entry_run w l sys Hd Hh). cbv zeta.
  destruct Hfail as [Hstop|[Hstop Hout]].
  - rewrite Hstop. cbn [fst snd heap hass_data services listeners with_state].
    repeat split. intros _. rewrite effects_since_with_state.
    cbn [app map ABODE_PLATFORMS]. not_in_effects.
  - rewrite Hstop, Hout. cbn [fst snd heap hass_data services listeners with_state].
    repeat split. intros [=].
Qed.

Lemma async_unload_entry_stops_half_way_witness :
  (async_unload_entry push_entry
     (async_setup_entry push_entry (fresh_world stop_fails)).1).2
    = Raise (AbodeException "Socket closed")
  ∧ hass_data (async_unload_entry push_entry
                 (async_setup_entry push_entry (fresh_world stop_fails)).1).1
    = Some 0.
Proof.
  destruct (async_unload_entry_stops_half_way push_entry
              (async_setup_entry push_entry (fresh_world stop_fails)).1 0
              (set_up_context false 0) (AbodeException "Socket closed"))
    as (Hr & Hd & _).
  - vm_compute; reflexivity.
  - vm_compute; reflexivity.
  - left. reflexivity.
  - by split.
Defined.

(** The relay loop ends at the first subscription that raises. *)
Lemma relay_loop_raise (pre : list timeline_group) (ev : timeline_group)
    (post : list timeline_group) (w : World) (l : nat) (sys : AbodeSystem) (e : exn) :
  hass_data w = Some l → heap w !! l = Some sys →
  (∀ event, event ∈ pre →
     vendor_outcome w (v_add_event_callback event (relay_callback event)) = None) →
  vendor_outcome w (v_add_event_callback ev (relay_callback ev)) = Some e →
  for_each (pre ++ ev :: post) (λ event,
      l ← hass_data_DOMAIN; _ ← deref l;
      add_event_callback l event (relay_callback event)) w =
    (with_state w
       (<[l := subscribe_events (map (λ event, (event, relay_callback event)) pre) sys]>
          (heap w))
       (hass_data w) (services w) (listeners w) (platforms w)
       (map (λ event, Vendor (v_add_event_callback event (relay_callback event)))
            (pre ++ [ev])),
     Raise e).
Proof.
  revert w sys. induction pre as [|p pre IH]; intros w sys Hd Hh Hok Hev.
  - cbn [app map]. rewrite for_each_cons, mbind_run, (context_run _ w l sys Hd Hh).
    unfold add_event_callback. rewrite mbind_run, vendor_call_run, Hev.
    by rewrite subscribe_events_nil, insert_id.
  - cbn [app]. rewrite for_each_cons, mbind_run, (context_run _ w l sys Hd Hh).
    unfold add_event_callback. rewrite mbind_run, vendor_call_run.
    rewrite (Hok p) by left. unfold update at 1.
    rewrite (IH _ (subscribe_events [(p, relay_callback p)] sys)).
    + simpl. unfold with_state. simpl. f_equal. f_equal.
      * by rewrite insert_alter_eq, subscribe_events_app.
      * by rewrite <- app_assoc.
    + done.
    + simpl. by rewrite lookup_alter_eq, Hh.
    + intros ev' Hev'. simpl. apply Hok. by right.
    + exact Hev.
Qed.

(** X12. [setup_abode_events] does not undo what it did: when the
    subscription of a category raises, the categories before it stay
    subscribed, those after it are not subscribed, and the exception
    leaves the function. *)
Theorem setup_abode_events_stops_at_first_failure (w : World) (l : nat)
    (sys : AbodeSystem) (pre : list timeline_group) (ev : timeline_group)
    (post : list timeline_group) (e : exn) :
  hass_data w = Some l → heap w !! l = Some sys →
  events = pre ++ ev :: post →
  (∀ event, event ∈ pre →
     vendor_outcome w (v_add_event_callback event (relay_callback event)) = None) →
  vendor_outcome w (v_add_event_callback ev (relay_callback ev)) = Some e →
  (setup_abode_events w).2 = Raise e
  ∧ subscribed_event_callbacks (setup_abode_events w).1 l =
      event_callbacks (abode sys) ++ map (λ event, (event, relay_callback event)) pre
  ∧ effects_since w (setup_abode_events w).1 =
      map (λ event, Vendor (v_add_event_callback event (relay_callback event)))
          (pre ++ [ev]).
Proof.
  intros Hd Hh Hev Hok Hraise. unfold setup_abode_events. rewrite Hev.
  rewrite (relay_loop_raise pre ev post w l sys e Hd Hh Hok Hraise).
  cbn [fst snd]. split; [done|]. split.
  - unfold subscribed_event_callbacks. cbn [heap with_state].
    by rewrite lookup_insert_eq.
  - apply effects_since_with_state.
Qed.

Lemma setup_abode_events_stops_at_first_failure_witness :
  subscribed_event_callbacks
    (setup_abode_events
       (async_setup_entry_try push_entry (fresh_world subscribe_fails)).1).1 0
  = [ (ALARM_GROUP, relay_callback ALARM_GROUP);
      (ALARM_END_GROUP, relay_callback ALARM_END_GROUP) ].
Proof.
  destruct (setup_abode_events_stops_at_first_failure
              (async_setup_entry_try push_entry (fresh_world subscribe_fails)).1 0
              {| abode := new_Abode; polling := false; devices := [];
                 logout_listener := None |}
              [ALARM_GROUP; ALARM_END_GROUP] PANEL_FAULT_GROUP
              [PANEL_RESTORE_GROUP; AUTOMATION_GROUP]
              (AbodeException "Invalid group")) as (_ & Hsub & _).
  - vm_compute; reflexivity.
  - vm_compute; reflexivity.
  - reflexivity.
  - intros event Hin.
    apply elem_of_cons in Hin as [->|Hin]; [reflexivity|].
    apply list_elem_of_singleton in Hin as ->. reflexivity.
  - reflexivity.
  - exact Hsub.
Defined.

(** ** Setup, seen from the host *)

(** X13. After a successful setup the service registry binds each of the
    three service names to its own handler, and no other name of the
    registry is touched. *)
Theorem services_bound_to_their_handlers (config_entry : ConfigEntry)
    (w0 w1 : World) :
  async_setup_entry config_entry w0 = (w1, Ret true) →
  services w1 !! "change_setting" = Some h_change_setting
  ∧ services w1 !! "capture_image" = Some h_capture_image
  ∧ services w1 !! "trigger_quick_action" = Some h_trigger_quick_action
  ∧ ∀ name,
      name ∉ ["change_setting"; "capture_image"; "trigger_quick_action"] →
      services w1 !! name = services w0 !! name.
Proof.
  intros Hset. apply async_setup_entry_true in Hset. subst w1.
  unfold set_up. cbn [services with_state].
  unfold SERVICE_SETTINGS, SERVICE_CAPTURE_IMAGE, SERVICE_TRIGGER.
  split; [|split; [|split]].
  - by rewrite lookup_insert_ne, lookup_insert_ne, lookup_insert_eq.
  - by rewrite lookup_insert_ne, lookup_insert_eq.
  - by rewrite lookup_insert_eq.
  - intros name Hname. rewrite !not_elem_of_cons in Hname.
    destruct Hname as (H1 & H2 & H3 & _).
    by rewrite !lookup_insert_ne.
Qed.

Lemma services_bound_to_their_handlers_witness :
  services pushing_world !! "trigger_quick_action" = Some h_trigger_quick_action.
Proof.
  refine (proj1 (proj2 (proj2 (services_bound_to_their_handlers push_entry
            (fresh_world quiet_vendor) pushing_world _)))).
  vm_compute; reflexivity.
Defined.

(** X14. After a successful setup the relay is in place: an event that
    the new client receives in one of the five categories is fired once on
    the host bus with the normalised record, and an event of any other
    category is dropped. *)
Theorem setup_installs_the_relay (config_entry : ConfigEntry) (w0 w1 : World)
    (event : timeline_group) (event_json : gmap string pyval) :
  async_setup_entry config_entry w0 = (w1, Ret true) →
  ∃ l, hass_data w1 = Some l
       ∧ deliver_event l event event_json w1 =
           (if bool_decide (event ∈ events)
            then add_trace (BusFire event (event_data event_json)) w1
            else w1,
            Ret tt).
Proof.
  intros Hset. apply async_setup_entry_true in Hset. subst w1.
  exists (fresh (dom (heap w0))). split; [reflexivity|].
  unfold deliver_event. rewrite mbind_run.
  erewrite deref_run by apply lookup_insert_eq.
  cbn [abode event_callbacks].
  destruct event; reflexivity.
Qed.

Lemma setup_installs_the_relay_witness :
  deliver_event 0 PANEL_FAULT_GROUP ∅ pushing_world
  = (add_trace (BusFire PANEL_FAULT_GROUP (event_data ∅)) pushing_world, Ret tt).
Proof.
  destruct (setup_installs_the_relay push_entry (fresh_world quiet_vendor)
              pushing_world PANEL_FAULT_GROUP ∅) as (l & Hl & Hdel).
  - vm_compute; reflexivity.
  - injection Hl as <-. exact Hdel.
Defined.

(** ** The relayed record *)

(** X15. The relayed record, key by key: each of the ten fields holds the
    payload's value for that key, or the empty string when the payload
    has none; every other key of the payload is dropped. *)
Theorem event_data_field_by_field (event_json : gmap string pyval) (key : string) :
  event_data event_json !! key =
    if bool_decide (key ∈ EVENT_FIELDS)
    then Some (default (PyStr EmptyString) (event_json !! key))
    else None.
Proof.
  assert (Hdom : dom (event_data event_json) = list_to_set EVENT_FIELDS)
    by (vm_compute; reflexivity).
  case_bool_decide as Hkey.
  - apply event_data_lookup. rewrite Hdom. by apply elem_of_list_to_set.
  - apply not_elem_of_dom. rewrite Hdom. by rewrite elem_of_list_to_set.
Qed.

(** X16. Normalising is idempotent: a record that is already normalised
    is relayed unchanged. *)
Theorem event_data_idempotent (event_json : gmap string pyval) :
  event_data (event_data event_json) = event_data event_json.
Proof.
  assert (Hdom : dom (event_data (event_data event_json))
                 = dom (event_data event_json)) by (vm_compute; reflexivity).
  apply map_eq. intros key.
  destruct (decide (key ∈ dom (event_data event_json))) as [Hin|Hout].
  - rewrite event_data_lookup by (by rewrite Hdom).
    by rewrite (event_data_lookup event_json key Hin).
  - transitivity (@None pyval).
    + apply not_elem_of_dom. by rewrite Hdom.
    + symmetry. by apply not_elem_of_dom.
Qed.

(** ** The entities and their context *)

(** X17. Detaching a device entity removes every callback subscribed for
    its device id, also those of other entities that wrap the same
    device, and keeps the callbacks of all other devices and the event
    callbacks. *)
Theorem device_detach_removes_by_device_id (d : AbodeDevice) (w : World)
    (sys : AbodeSystem) :
  heap w !! dev_data d = Some sys →
  vendor_outcome w (v_remove_all_device_callbacks (dev_device_id d)) = None →
  (AbodeDevice_async_will_remove_from_hass d w).2 = Ret tt
  ∧ (∀ device_id cb,
       (device_id, cb) ∈ subscribed_device_callbacks
                           (AbodeDevice_async_will_remove_from_hass d w).1 (dev_data d)
       ↔ (device_id, cb) ∈ device_callbacks (abode sys)
         ∧ device_id ≠ dev_device_id d)
  ∧ subscribed_event_callbacks
      (AbodeDevice_async_will_remove_from_hass d w).1 (dev_data d)
    = event_callbacks (abode sys).
Proof.
  intros Hh Hrem. unfold AbodeDevice_async_will_remove_from_hass.
  rewrite mbind_run, (deref_run w _ sys Hh).
  unfold async_add_job, remove_all_device_callbacks.
  rewrite mbind_run, vendor_call_run, Hrem. unfold update.
  cbn [fst snd]. split; [done|].
  unfold subscribed_device_callbacks, subscribed_event_callbacks.
  cbn [heap set_heap with_state]. rewrite lookup_alter_eq, Hh.
  cbn [fmap option_fmap option_map abode set_abode device_callbacks event_callbacks].
  split; [|done].
  intros device_id cb. rewrite list_elem_of_filter. cbn [fst]. tauto.
Qed.

Lemma device_detach_removes_by_device_id_witness :
  subscribed_device_callbacks
    (AbodeDevice_async_will_remove_from_hass (front_camera 0)
       (AbodeDevice_async_added_to_hass (back_camera 0)
          (AbodeDevice_async_added_to_hass
             {| dev_data := 0; dev_device_id := "XF:1";
                dev_entity_id := "sensor.front_lux" |}
             (AbodeDevice_async_added_to_hass (front_camera 0) pushing_world).1).1).1).1
    0
  = [("XF:2", device_update_callback (back_camera 0))].
Proof.
  pose proof (device_detach_removes_by_device_id (front_camera 0)
    (AbodeDevice_async_added_to_hass (back_camera 0)
       (AbodeDevice_async_added_to_hass
          {| dev_data := 0; dev_device_id := "XF:1";
             dev_entity_id := "sensor.front_lux" |}
          (AbodeDevice_async_added_to_hass (front_camera 0) pushing_world).1).1).1
    {| abode :=
         {| event_callbacks := relay_subscriptions;
            device_callbacks :=
              [ ("XF:1", device_update_callback (front_camera 0));
                ("XF:1", device_update_callback
                           {| dev_data := 0; dev_device_id := "XF:1";
                              dev_entity_id := "sensor.front_lux" |});
                ("XF:2", device_update_callback (back_camera 0)) ] |};
       polling := false; devices := []; logout_listener := Some 0 |}
    ltac:(vm_compute; reflexivity) ltac:(reflexivity)) as _.
  vm_compute; reflexivity.
Defined.

(** X18. An entity keeps its context after unload: the data slot is
    emptied, but [should_poll] of a device or automation entity built on
    the context still answers with its polling flag. *)
Theorem should_poll_survives_unload (config_entry : ConfigEntry) (w w' : World)
    (l : nat) (sys : AbodeSystem) (d : AbodeDevice) (a : AbodeAutomation) :
  hass_data w = Some l → heap w !! l = Some sys →
  dev_data d = l → aut_data a = l →
  async_unload_entry config_entry w = (w', Ret true) →
  hass_data w' = None
  ∧ AbodeDevice_should_poll d w' = (w', Ret (polling sys))
  ∧ AbodeAutomation_should_poll a w' = (w', Ret (polling sys)).
Proof.
  intros Hd Hh Hdev Haut Hun.
  rewrite (async_unload_entry_run w l sys Hd Hh) in Hun. cbv zeta in Hun.
  destruct (vendor_outcome w v_events_stop); [discriminate|].
  destruct (vendor_outcome w v_logout); [discriminate|].
  destruct (logout_listener sys); [|discriminate].
  injection Hun as <-.
  split; [reflexivity|].
  unfold AbodeDevice_should_poll, AbodeAutomation_should_poll.
  rewrite !mbind_run, Hdev, Haut.
  by erewrite deref_run by exact Hh.
Qed.

Lemma should_poll_survives_unload_witness :
  AbodeDevice_should_poll (front_camera 0)
    (async_unload_entry poll_entry polling_world).1
  = ((async_unload_entry poll_entry polling_world).1, Ret true).
Proof.
  refine (proj1 (proj2 (should_poll_survives_unload poll_entry polling_world
           (async_unload_entry poll_entry polling_world).1 0
           (set_up_context true 0) (front_camera 0) (away_automation 0 None)
           _ _ _ _ _)));
    vm_compute; reflexivity.
Defined.

(** X19. Attaching hands the subscription to the executor and does not
    wait for it: when the vendor refuses the subscription, attaching a
    device or an automation entity still returns normally, and nothing is
    subscribed. *)
Theorem attach_does_not_report_vendor_errors (d : AbodeDevice) (a : AbodeAutomation)
    (event : timeline_group) (w : World) (sys_d sys_a : AbodeSystem)
    (e_d e_a : exn) :
  heap w !! dev_data d = Some sys_d →
  heap w !! aut_data a = Some sys_a →
  aut_event a = Some event → event_truthy (aut_event a) = true →
  vendor_outcome w (v_add_device_callback (dev_device_id d) (device_update_callback d))
    = Some e_d →
  vendor_outcome w (v_add_event_callback event (automation_update_callback a))
    = Some e_a →
  (AbodeDevice_async_added_to_hass d w).2 = Ret tt
  ∧ heap (AbodeDevice_async_added_to_hass d w).1 = heap w
  ∧ (AbodeAutomation_async_added_to_hass a w).2 = Ret tt
  ∧ heap (AbodeAutomation_async_added_to_hass a w).1 = heap w.
Proof.
  intros Hd Ha Hev Htruthy Hadd Hsub.
  unfold AbodeDevice_async_added_to_hass, AbodeAutomation_async_added_to_hass.
  rewrite Htruthy, Hev.
  rewrite !mbind_run, (deref_run w _ sys_d Hd), (deref_run w _ sys_a Ha).
  unfold async_add_job, add_device_callback, add_event_callback.
  rewrite !mbind_run, !vendor_call_run, Hadd, Hsub. by cbn [fst snd heap with_state].
Qed.

Lemma attach_does_not_report_vendor_errors_witness :
  (AbodeDevice_async_added_to_hass (front_camera 0)
     (async_setup_entry_try push_entry (fresh_world subscribe_fails)).1).2 = Ret tt
  ∧ heap (AbodeDevice_async_added_to_hass (front_camera 0)
            (async_setup_entry_try push_entry (fresh_world subscribe_fails)).1).1
    = heap (async_setup_entry_try push_entry (fresh_world subscribe_fails)).1.
Proof.
  destruct (attach_does_not_report_vendor_errors (front_camera 0)
              (away_automation 0 (Some PANEL_FAULT_GROUP)) PANEL_FAULT_GROUP
              (async_setup_entry_try push_entry (fresh_world subscribe_fails)).1
              {| abode := new_Abode; polling := false; devices := [];
                 logout_listener := None |}
              {| abode := new_Abode; polling := false; devices := [];
                 logout_listener := None |}
              (AbodeException "Invalid device") (AbodeException "Invalid group"))
    as (Hr & Hh & _).
  - vm_compute; reflexivity.
  - vm_compute; reflexivity.
  - reflexivity.
  - reflexivity.
  - reflexivity.
  - reflexivity.
  - by split.
Defined.

(** ** What the handlers leave alone *)

Lemma only_effects_refl (w : World) : only_effects w w.
Proof. by repeat split. Qed.

Lemma only_effects_with_state (w : World) (new : list effect) :
  only_effects w
    (with_state w (heap w) (hass_data w) (services w) (listeners w) (platforms w) new).
Proof. repeat split. by apply prefix_app_r. Qed.

Lemma only_effects_trans (w1 w2 w3 : World) :
  only_effects w1 w2 → only_effects w2 w3 → only_effects w1 w3.
Proof.
  intros (?&?&?&?&?&?&?&?) (?&?&?&?&?&?&?&?).
  repeat split; try congruence. by etrans.
Qed.

Lemma for_each_vendor_calls_only_effects {A} (op : A → vendor_op) (l : list A)
    (w : World) :
  only_effects w (for_each l (λ x, vendor_call (op x)) w).1.
Proof.
  revert w. induction l as [|x l IH]; intros w.
  - rewrite for_each_nil. apply only_effects_refl.
  - rewrite for_each_cons, mbind_run, vendor_call_run.
    destruct (vendor_outcome w (op x)).
    + apply only_effects_with_state.
    + eapply only_effects_trans; [apply only_effects_with_state | apply IH].
Qed.

(** X20. Whatever the vendor does and whatever the call holds, a service
    handler only adds effects: it changes neither the context nor the
    device registry, the service registry, the shutdown listeners or the
    forwarded platforms, and it removes nothing from the trace. *)
Theorem handlers_only_add_effects (h : handler) (call : ServiceCall) (w : World) :
  only_effects w (run_handler h call w).1.
Proof.
  destruct h; cbn [run_handler].
  - unfold change_setting, try_except. rewrite mbind_run.
    unfold hass_data_DOMAIN.
    destruct (hass_data w) as [l|]; [|apply only_effects_refl].
    rewrite mbind_run. unfold deref.
    destruct (heap w !! l) as [sys|]; [|apply only_effects_refl].
    rewrite vendor_call_run.
    destruct (vendor_outcome w _) as [[]|]; cbn [fst is_AbodeException];
      try apply only_effects_with_state.
    unfold LOGGER, emit. cbn [fst].
    eapply only_effects_trans; [apply only_effects_with_state|].
    repeat split. by apply prefix_app_r.
  - unfold capture_image. rewrite mbind_run. unfold hass_data_DOMAIN.
    destruct (hass_data w) as [l|]; [|apply only_effects_refl].
    rewrite mbind_run. unfold deref.
    destruct (heap w !! l) as [sys|]; [|apply only_effects_refl].
    rewrite mbind_run. unfold select_devices.
    destruct (call_entity_id call) as [ids|].
    + apply for_each_vendor_calls_only_effects.
    + destruct (devices sys); unfold mret, M_ret, raise;
        [rewrite for_each_nil|]; apply only_effects_refl.
  - unfold trigger_quick_action. rewrite mbind_run. unfold hass_data_DOMAIN.
    destruct (hass_data w) as [l|]; [|apply only_effects_refl].
    rewrite mbind_run. unfold deref.
    destruct (heap w !! l) as [sys|]; [|apply only_effects_refl].
    rewrite mbind_run. unfold select_devices.
    destruct (call_entity_id call) as [ids|].
    + apply for_each_vendor_calls_only_effects.
    + destruct (devices sys); unfold mret, M_ret, raise;
        [rewrite for_each_nil|]; apply only_effects_refl.
Qed.

(** ** The attribute dictionaries *)

(** X21. The state attributes of a device entity always hold the
    device's id, battery flag, response flag and type; together with the
    attribution they are five keys, provided the attribution key is none
    of the four. *)
Theorem device_state_attributes_keys (ATTR_ATTRIBUTION ATTRIBUTION : string)
    (device : VendorDevice) :
  ATTR_ATTRIBUTION ∉ ["device_id"; "battery_low"; "no_response"; "device_type"] →
  dom (AbodeDevice_device_state_attributes ATTR_ATTRIBUTION ATTRIBUTION device) =
    ({[ ATTR_ATTRIBUTION; "device_id"; "battery_low"; "no_response";
        "device_type" ]} : gset string)
  ∧ size (AbodeDevice_device_state_attributes ATTR_ATTRIBUTION ATTRIBUTION device) = 5
  ∧ AbodeDevice_device_state_attributes ATTR_ATTRIBUTION ATTRIBUTION device
      !! ATTR_ATTRIBUTION = Some (PyStr ATTRIBUTION)
  ∧ AbodeDevice_device_state_attributes ATTR_ATTRIBUTION ATTRIBUTION device
      !! "device_id" = Some (PyStr (vd_device_id device))
  ∧ AbodeDevice_device_state_attributes ATTR_ATTRIBUTION ATTRIBUTION device
      !! "battery_low" = Some (PyBool (vd_battery_low device))
  ∧ AbodeDevice_device_state_attributes ATTR_ATTRIBUTION ATTRIBUTION device
      !! "no_response" = Some (PyBool (vd_no_response device))
  ∧ AbodeDevice_device_state_attributes ATTR_ATTRIBUTION ATTRIBUTION device
      !! "device_type" = Some (PyStr (vd_type device)).
Proof.
  intros Hkey. rewrite !not_elem_of_cons in Hkey.
  destruct Hkey as (H1 & H2 & H3 & H4 & _).
  unfold AbodeDevice_device_state_attributes.
  split; [|split].
  - rewrite !dom_insert_L, dom_empty_L. set_solver.
  - rewrite !map_size_insert_None, map_size_empty; [done|..];
      rewrite ?lookup_insert_ne by done; apply lookup_empty.
  - repeat split; by simplify_map_eq.
Qed.

Lemma device_state_attributes_keys_witness :
  size (AbodeDevice_device_state_attributes "attribution" "Data provided by goabode.com"
          {| vd_device_id := "XF:1"; vd_device_uuid := "u-1"; vd_name := "Front";
             vd_type := "IP Cam"; vd_battery_low := false;
             vd_no_response := false |}) = 5.
Proof.
  refine (proj1 (proj2 (device_state_attributes_keys "attribution" _ _ _))).
  rewrite !not_elem_of_cons. repeat split; try discriminate. apply not_elem_of_nil.
Defined.

(** X22. The state attributes of an automation entity always hold the
    automation's id, type and sub-type; together with the attribution
    they are four keys, provided the attribution key is none of the
    three. *)
Theorem automation_state_attributes_keys (ATTR_ATTRIBUTION ATTRIBUTION : string)
    (automation : VendorAutomation) :
  ATTR_ATTRIBUTION ∉ ["automation_id"; "type"; "sub_type"] →
  dom (AbodeAutomation_device_state_attributes ATTR_ATTRIBUTION ATTRIBUTION automation) =
    ({[ ATTR_ATTRIBUTION; "automation_id"; "type"; "sub_type" ]} : gset string)
  ∧ size (AbodeAutomation_device_state_attributes ATTR_ATTRIBUTION ATTRIBUTION automation)
    = 4
  ∧ AbodeAutomation_device_state_attributes ATTR_ATTRIBUTION ATTRIBUTION automation
      !! ATTR_ATTRIBUTION = Some (PyStr ATTRIBUTION)
  ∧ AbodeAutomation_device_state_attributes ATTR_ATTRIBUTION ATTRIBUTION automation
      !! "automation_id" = Some (PyStr (va_automation_id automation))
  ∧ AbodeAutomation_device_state_attributes ATTR_ATTRIBUTION ATTRIBUTION automation
      !! "type" = Some (PyStr (va_type automation))
  ∧ AbodeAutomation_device_state_attributes ATTR_ATTRIBUTION ATTRIBUTION automation
      !! "sub_type" = Some (PyStr (va_sub_type automation)).
Proof.
  intros Hkey. rewrite !not_elem_of_cons in Hkey.
  destruct Hkey as (H1 & H2 & H3 & _).
  unfold AbodeAutomation_device_state_attributes.
  split; [|split].
  - rewrite !dom_insert_L, dom_empty_L. set_solver.
  - rewrite !map_size_insert_None, map_size_empty; [done|..];
      rewrite ?lookup_insert_ne by done; apply lookup_empty.
  - repeat split; by simplify_map_eq.
Qed.

Lemma automation_state_attributes_keys_witness :
  size (AbodeAutomation_device_state_attributes "attribution"
          "Data provided by goabode.com"
          {| va_automation_id := "7"; va_name := "Away"; va_type := "manual";
             va_sub_type := "quick" |}) = 4.
Proof.
  refine (proj1 (proj2 (automation_state_attributes_keys "attribution" _ _ _))).
  rewrite !not_elem_of_cons. repeat split; try discriminate. apply not_elem_of_nil.
Defined.
